(** * Verification of the retry classification of the patient-doctor sample

    Sources embedded here:
    - [rest-api-typescript/src/errors.ts]: the error classes, [getRetryAction],
      [isErrorLike], [isDuplicateTransactionError], the three message matchers
      and [handleError];
    - [chaincode-ts/src/symptomTransfer.ts]: the symptom contract.

    JavaScript values are modelled as a data type, property reads and method
    calls that can raise a [TypeError] live in an error monad, and regular
    expressions are run by a backtracking matcher. The calls to the logger
    have no bearing on the results and are left out. *)

From Stdlib Require Import String Ascii ZArith Bool Lia List NArith.
From stdpp Require Import base option list strings gmap.

Set Warnings "-register-all".
Local Open Scope string_scope.

(** ** JavaScript values *)
Module JS.

(** The classes whose instances [errors.ts] tells apart. [TimeoutError] and
    [TransactionError] are imported from fabric-network, the other error
    classes are declared in [errors.ts]. *)
Inductive class :=
| ObjectC
| ErrorC
| TimeoutErrorC
| TransactionErrorC
| ContractErrorC
| TransactionNotFoundErrorC
| SymptomExistsErrorC
| SymptomNotFoundErrorC.

(** [class C extends D]. *)
Definition superclass (c : class) : option class :=
  match c with
  | ObjectC => None
  | ErrorC => Some ObjectC
  | TimeoutErrorC => Some ErrorC
  | TransactionErrorC => Some ErrorC
  | ContractErrorC => Some ErrorC
  | TransactionNotFoundErrorC => Some ContractErrorC
  | SymptomExistsErrorC => Some ContractErrorC
  | SymptomNotFoundErrorC => Some ContractErrorC
  end.

Definition class_eqb (c d : class) : bool :=
  match c, d with
  | ObjectC, ObjectC | ErrorC, ErrorC | TimeoutErrorC, TimeoutErrorC
  | TransactionErrorC, TransactionErrorC | ContractErrorC, ContractErrorC
  | TransactionNotFoundErrorC, TransactionNotFoundErrorC
  | SymptomExistsErrorC, SymptomExistsErrorC
  | SymptomNotFoundErrorC, SymptomNotFoundErrorC => true
  | _, _ => false
  end.

(** Walk of the prototype chain; the hierarchy is three levels deep. *)
Fixpoint extends_within (depth : nat) (c d : class) : bool :=
  class_eqb c d ||
  match depth with
  | O => false
  | S n => match superclass c with
           | Some p => extends_within n p d
           | None => false
           end
  end.

Definition extends (c d : class) : bool := extends_within 3 c d.

(** Values: primitives, arrays and objects. An object carries the class of
    its prototype and its own data properties in insertion order. Numbers
    only occur as values that are neither strings nor arrays, so integers
    stand for them. Strings are sequences of bytes (their UTF-8 text); the
    expressions of [errors.ts] name ASCII characters only, so they cut such
    a text where they cut the string. Functions, symbols and accessor
    properties are outside the model. *)
Inductive value :=
| VUndefined
| VNull
| VBool (b : bool)
| VNumber (n : Z)
| VString (s : string)
| VArray (xs : list value)
| VObject (c : class) (fields : list (string * value)).

(** What a JavaScript operation can raise. *)
Inductive exn :=
| TypeError
| Thrown (v : value).

Inductive result (A : Type) :=
| Ok (a : A)
| Throw (e : exn).
Arguments Ok {A} a.
Arguments Throw {A} e.

(** Sequencing: an exception raised by [m] skips [f]. *)
Definition bind {A B : Type} (m : result A) (f : A → result B) : result B :=
  match m with
  | Ok a => f a
  | Throw e => Throw e
  end.

Notation "'let*' x := m 'in' k" := (bind m (fun x => k))
  (at level 10, x name, m at level 100, k at level 200).

(** [a && b] where both sides may raise; [b] is not evaluated when [a] is
    false. *)
Definition and_then (a b : result bool) : result bool :=
  let* x := a in if x then b else Ok false.

(** [a || b], likewise. *)
Definition or_else (a b : result bool) : result bool :=
  let* x := a in if x then Ok true else b.

Definition is_nullish (v : value) : bool :=
  match v with
  | VUndefined | VNull => true
  | _ => false
  end.

(** [v === p] for a primitive [p] (the module only compares against
    [undefined], [null], [true] and string constants). *)
Definition strict_eq (v p : value) : bool :=
  match v, p with
  | VUndefined, VUndefined => true
  | VNull, VNull => true
  | VBool a, VBool b => Bool.eqb a b
  | VNumber a, VNumber b => Z.eqb a b
  | VString a, VString b => String.eqb a b
  | _, _ => false
  end.

(** [v != undefined] and [v != null]: both are false exactly on [undefined]
    and [null]. *)
Definition loose_neq_nullish (v : value) : bool := negb (is_nullish v).

Definition typeof (v : value) : string :=
  match v with
  | VUndefined => "undefined"
  | VNull => "object"
  | VBool _ => "boolean"
  | VNumber _ => "number"
  | VString _ => "string"
  | VArray _ => "object"
  | VObject _ _ => "object"
  end.

(** ToBoolean. *)
Definition truthy (v : value) : bool :=
  match v with
  | VUndefined | VNull => false
  | VBool b => b
  | VNumber n => negb (Z.eqb n 0)
  | VString s => negb (String.eqb s "")
  | VArray _ | VObject _ _ => true
  end.

Fixpoint own_property (k : string) (fields : list (string * value)) : option value :=
  match fields with
  | [] => None
  | (k', v) :: rest => if String.eqb k k' then Some v else own_property k rest
  end.

(** Properties found on the prototype chain: [Error.prototype] holds
    [name = 'Error'] and [message = '']. *)
Definition inherited_property (c : class) (k : string) : value :=
  if extends c ErrorC then
    if String.eqb k "name" then VString "Error"
    else if String.eqb k "message" then VString ""
    else VUndefined
  else VUndefined.

(** [v.k], for the property names [errors.ts] reads ([name], [message],
    [stack], [transactionCode], [errors], [endorsements], [details]): none
    of them is defined on the prototype of a primitive or of an array.
    Reading a property of [undefined] or [null] raises a [TypeError]. *)
Definition get (v : value) (k : string) : result value :=
  match v with
  | VUndefined | VNull => Throw TypeError
  | VObject c fields =>
      Ok (match own_property k fields with
          | Some x => x
          | None => inherited_property c k
          end)
  | VBool _ | VNumber _ | VString _ | VArray _ => Ok VUndefined
  end.

(** [v?.k]. *)
Definition opt_get (v : value) (k : string) : result value :=
  if is_nullish v then Ok VUndefined else get v k.

(** [Array.prototype.some]: the callback runs on the elements in order until
    one result is truthy. *)
Fixpoint some_loop (f : value → result value) (xs : list value) : result value :=
  match xs with
  | [] => Ok (VBool false)
  | x :: rest => let* r := f x in if truthy r then Ok (VBool true) else some_loop f rest
  end.

(** [v.some(f)]: only arrays have a callable [some]; data values have none,
    and calling a missing or non-callable property raises a [TypeError]. *)
Definition call_some (v : value) (f : value → result value) : result value :=
  match v with
  | VArray xs => some_loop f xs
  | _ => Throw TypeError
  end.

(** [v?.some(f)]. *)
Definition opt_some (v : value) (f : value → result value) : result value :=
  if is_nullish v then Ok VUndefined else call_some v f.

(** [v.startsWith(p)]: a string method. *)
Definition call_startsWith (v : value) (p : string) : result value :=
  match v with
  | VString s => Ok (VBool (String.prefix p s))
  | _ => Throw TypeError
  end.

(** [v?.startsWith(p)]. *)
Definition opt_startsWith (v : value) (p : string) : result value :=
  if is_nullish v then Ok VUndefined else call_startsWith v p.

(** [v instanceof C]. *)
Definition instanceof (v : value) (c : class) : bool :=
  match v with
  | VObject c' _ => extends c' c
  | _ => false
  end.

(** [this.k = x] on an object. *)
Fixpoint set_field (k : string) (x : value) (fields : list (string * value))
  : list (string * value) :=
  match fields with
  | [] => [(k, x)]
  | (k', v) :: rest =>
      if String.eqb k k' then (k', x) :: rest else (k', v) :: set_field k x rest
  end.

Definition assign (v : value) (k : string) (x : value) : value :=
  match v with
  | VObject c fields => VObject c (set_field k x fields)
  | _ => v
  end.

(** [Object.setPrototypeOf(this, C.prototype)]. *)
Definition setPrototypeOf (v : value) (c : class) : value :=
  match v with
  | VObject _ fields => VObject c fields
  | _ => v
  end.

(** [new Error(message)]: the message becomes an own property. (The [stack]
    an engine may attach is a string; [isErrorLike] accepts it absent or
    present and nothing else reads it.) *)
Definition new_Error (message : string) : value :=
  VObject ErrorC [("message", VString message)].

End JS.

(** ** Regular expressions *)
Module Regex.

(** The fragment of the regular expression syntax that [errors.ts] uses:
    literal characters and character classes, sequence, alternation,
    [r?] and [class*] (both greedy). Groups only delimit; with the [g] flag
    [String.prototype.match] does not report captures. *)
Inductive regex :=
| Eps
| Chr (p : ascii → bool)
| Seq (r1 r2 : regex)
| Alt (r1 r2 : regex)
| Opt (r : regex)
| Star (p : ascii → bool).

Infix ">>" := Seq (at level 60, right associativity).

(** A literal run of characters. *)
Fixpoint lit (l : string) : regex :=
  match l with
  | EmptyString => Eps
  | String c l' => Chr (Ascii.eqb c) >> lit l'
  end.

(** [[abc]] and [[^abc]]. *)
Fixpoint one_of (cs : string) (c : ascii) : bool :=
  match cs with
  | EmptyString => false
  | String x cs' => Ascii.eqb x c || one_of cs' c
  end.

Definition none_of (cs : string) (c : ascii) : bool := negb (one_of cs c).

Definition between (lo hi c : ascii) : bool :=
  (N_of_ascii lo <=? N_of_ascii c)%N && (N_of_ascii c <=? N_of_ascii hi)%N.

(** [\w] is [[A-Za-z0-9_]]. *)
Definition word (c : ascii) : bool :=
  between "A" "Z" c || between "a" "z" c || between "0" "9" c || Ascii.eqb "_" c.

(** Backtracking matcher in continuation-passing style: [run r s k] matches
    [r] at the start of [s] and hands the unread rest to [k]; when [k]
    fails the next alternative is tried, in the priority order of the
    language (group before skipping it, longest repetition first, left
    branch before right). *)
Fixpoint star (p : ascii → bool) (s : string) (k : string → option string)
  : option string :=
  match s with
  | String c s' =>
      if p c then
        match star p s' k with
        | Some r => Some r
        | None => k s
        end
      else k s
  | EmptyString => k s
  end.

Fixpoint run (r : regex) (s : string) (k : string → option string)
  : option string :=
  match r with
  | Eps => k s
  | Chr p =>
      match s with
      | String c s' => if p c then k s' else None
      | EmptyString => None
      end
  | Seq r1 r2 => run r1 s (fun s' => run r2 s' k)
  | Alt r1 r2 =>
      match run r1 s k with
      | Some x => Some x
      | None => run r2 s k
      end
  | Opt r1 =>
      match run r1 s k with
      | Some x => Some x
      | None => k s
      end
  | Star p => star p s k
  end.

(** The match starting at the first position of [s], if any: the matched
    text and what follows it. *)
Definition match_here (r : regex) (s : string) : option (string * string) :=
  match run r s Some with
  | Some rest => Some (substring 0 (String.length s - String.length rest) s, rest)
  | None => None
  end.

(** The leftmost match. *)
Fixpoint exec (r : regex) (s : string) : option (string * string) :=
  match match_here r s with
  | Some x => Some x
  | None =>
      match s with
      | String _ s' => exec r s'
      | EmptyString => None
      end
  end.

(** The successive matches of a global expression; after an empty match the
    search resumes one character further. *)
Fixpoint match_all (fuel : nat) (r : regex) (s : string) : list string :=
  match fuel with
  | O => []
  | S n =>
      match exec r s with
      | None => []
      | Some (m, rest) =>
          m :: (if String.eqb m "" then
                  match rest with
                  | String _ rest' => match_all n r rest'
                  | EmptyString => []
                  end
                else match_all n r rest)
      end
  end.

(** [s.match(/r/g)]: [null] when nothing matches, else the array of all
    matches, which then has a first element. *)
Definition match_g (r : regex) (s : string) : option (string * list string) :=
  match match_all (S (String.length s)) r s with
  | [] => None
  | m0 :: more => Some (m0, more)
  end.

(** [s] without its prefix [l], when it has this prefix. *)
Fixpoint strip_prefix (l s : string) : option string :=
  match l with
  | EmptyString => Some s
  | String a l' =>
      match s with
      | String c s' => if Ascii.eqb a c then strip_prefix l' s' else None
      | EmptyString => None
      end
  end.

End Regex.

(** ** errors.ts *)
Module RetryAction.

Inductive t :=
| WithExistingTransactionId
| WithNewTransactionId
| None.

End RetryAction.

Module Errors.
Import JS Regex.

(** [new ContractError(message, transactionId)]. *)
Definition new_ContractError (message transactionId : string) : value :=
  let this := new_Error message in
  let this := setPrototypeOf this ContractErrorC in
  let this := assign this "name" (VString "TransactionError") in
  assign this "transactionId" (VString transactionId).

Definition new_TransactionNotFoundError (message transactionId : string) : value :=
  let this := new_ContractError message transactionId in
  let this := setPrototypeOf this TransactionNotFoundErrorC in
  assign this "name" (VString "TransactionNotFoundError").

Definition new_SymptomExistsError (message transactionId : string) : value :=
  let this := new_ContractError message transactionId in
  let this := setPrototypeOf this SymptomExistsErrorC in
  assign this "name" (VString "SymptomExistsError").

Definition new_SymptomNotFoundError (message transactionId : string) : value :=
  let this := new_ContractError message transactionId in
  let this := setPrototypeOf this SymptomNotFoundErrorC in
  assign this "name" (VString "SymptomNotFoundError").

(** [typeof v.k === 'string'] *)
Definition typeof_is_string (v : value) (k : string) : result bool :=
  let* x := get v k in Ok (String.eqb (typeof x) "string").

Definition isErrorLike (err : value) : result bool :=
  and_then (Ok (loose_neq_nullish err))
    (and_then (Ok (loose_neq_nullish err))
       (and_then (typeof_is_string err "name")
          (and_then (typeof_is_string err "message")
             (or_else (let* st := get err "stack" in Ok (strict_eq st VUndefined))
                      (typeof_is_string err "stack"))))).

Definition isDuplicateTransactionError (err : value) : result bool :=
  if strict_eq err VUndefined || strict_eq err VNull then Ok false
  else
    let* code_is_string := typeof_is_string err "transactionCode" in
    let* isDuplicate :=
      if code_is_string then
        let* code := get err "transactionCode" in
        Ok (VBool (strict_eq code (VString "DUPLICATE_TXID")))
      else
        let endorsementError := err in
        let* errors := opt_get endorsementError "errors" in
        opt_some errors (fun err =>
          let* endorsements := opt_get err "endorsements" in
          opt_some endorsements (fun endorsement =>
            let* details := opt_get endorsement "details" in
            opt_startsWith details "duplicate transaction found"))
    in
    Ok (strict_eq isDuplicate (VBool true)).

Definition getRetryAction (err : value) : result RetryAction.t :=
  let* stop :=
    or_else (isDuplicateTransactionError err) (Ok (instanceof err ContractErrorC)) in
  if stop then Ok RetryAction.None
  else if instanceof err TimeoutErrorC then Ok RetryAction.WithExistingTransactionId
  else Ok RetryAction.WithNewTransactionId.

(** [/([tT]he )?[aA]sset \w* already exists/g] *)
Definition symptomAlreadyExistsRegex : regex :=
  Opt (Chr (one_of "tT") >> lit "he ") >>
  Chr (one_of "aA") >> lit "sset " >> Star word >> lit " already exists".

(** [/([tT]he )?[aA]sset \w* does not exist/g] *)
Definition symptomDoesNotExistRegex : regex :=
  Opt (Chr (one_of "tT") >> lit "he ") >>
  Chr (one_of "aA") >> lit "sset " >> Star word >> lit " does not exist".

(** [/Failed to get transaction with id [^,]*, error (?:(?:Entry not found)|(?:no such transaction ID \[[^\]]*\])) in index/g] *)
Definition transactionDoesNotExistRegex : regex :=
  lit "Failed to get transaction with id " >> Star (none_of ",") >>
  lit ", error " >>
  Alt (lit "Entry not found")
      (lit "no such transaction ID [" >> Star (none_of "]") >> lit "]") >>
  lit " in index".

(** The three matchers share one shape: run the expression, return the
    first match or [null]. *)
Definition first_match (r : regex) (message : string) : option string :=
  match match_g r message with
  | Some (m0, _) => Some m0
  | Datatypes.None => Datatypes.None
  end.

Definition matchSymptomAlreadyExistsMessage (message : string) : option string :=
  first_match symptomAlreadyExistsRegex message.

Definition matchSymptomDoesNotExistMessage (message : string) : option string :=
  first_match symptomDoesNotExistRegex message.

Definition matchTransactionDoesNotExistMessage (message : string) : option string :=
  first_match transactionDoesNotExistRegex message.

(** [err.message] passed where a string is expected: the matchers call
    [message.match], a method of strings; on another data value the call
    raises a [TypeError]. *)
Definition message_of (err : value) : result string :=
  let* m := get err "message" in
  match m with
  | VString s => Ok s
  | _ => Throw TypeError
  end.

Definition handleError (transactionId : string) (err : value) : result value :=
  let* errorLike := isErrorLike err in
  if errorLike then
    let* message := message_of err in
    match matchSymptomAlreadyExistsMessage message with
    | Some symptomAlreadyExistsMatch =>
        Ok (new_SymptomExistsError symptomAlreadyExistsMatch transactionId)
    | Datatypes.None =>
        let* message := message_of err in
        match matchSymptomDoesNotExistMessage message with
        | Some symptomDoesNotExistMatch =>
            Ok (new_SymptomNotFoundError symptomDoesNotExistMatch transactionId)
        | Datatypes.None =>
            let* message := message_of err in
            match matchTransactionDoesNotExistMessage message with
            | Some transactionDoesNotExistMatch =>
                Ok (new_TransactionNotFoundError transactionDoesNotExistMatch
                      transactionId)
            | Datatypes.None => Ok err
            end
        end
    end
  else Ok err.

End Errors.

(** ** chaincode-ts/src/symptomTransfer.ts *)
Module Chaincode.
Import JS.

(** The fields [CreateSymptom] and [UpdateSymptom] store. *)
Record Symptom := {
  ID : string;
  Comment : string;
  Owner : string;
  SymptomTimestamp : Z
}.

(** A [Buffer] is a byte string; [Buffer.from(text)] and [buffer.toString()]
    convert between a text and its bytes, which are the same thing here.
    This is [toString] on the buffers the contract writes, the bytes of a
    JSON text; bytes that are no UTF-8, which [toString] would replace,
    are not told apart. *)
Abbreviation Buffer := string.
Definition Buffer_from (text : string) : Buffer := text.
Definition Buffer_toString (b : Buffer) : string := b.

(** A transaction reads and writes the world state and either returns or
    throws; the writes of a transaction that throws are discarded. *)
Definition tx (A : Type) : Type := gmap string Buffer → result (A * gmap string Buffer).

Definition tx_bind {A B : Type} (m : tx A) (f : A → tx B) : tx B :=
  fun w => match m w with
           | Ok (a, w') => f a w'
           | Throw e => Throw e
           end.

Definition tx_ret {A : Type} (a : A) : tx A := fun w => Ok (a, w).
Definition tx_throw {A : Type} (v : value) : tx A := fun _ => Throw (Thrown v).

Notation "'await' x := m 'in' k" := (tx_bind m (fun x => k))
  (at level 10, x name, m at level 100, k at level 200).

(** The ledger stub [ctx.stub] of fabric-contract-api, as a key/value store:
    [getState] answers the empty buffer for a key that holds nothing. *)
Definition getState (key : string) : tx Buffer :=
  fun w => Ok (default "" (w !! key), w).

Definition putState (key : string) (value : Buffer) : tx unit :=
  fun w => Ok (tt, <[key := value]> w).

Definition deleteState (key : string) : tx unit :=
  fun w => Ok (tt, delete key w).

Definition does_not_exist_message (id : string) : string :=
  "The symptom " +:+ id +:+ " does not exist".

Section Contract.

(** [JSON.stringify] on a symptom object literal. *)
Variable JSON_stringify : Symptom → string.

Definition CreateSymptom (id comment owner : string) (symptomTimestamp : Z) : tx unit :=
  let symptom := {| ID := id; Comment := comment; Owner := owner;
                    SymptomTimestamp := symptomTimestamp |} in
  putState id (Buffer_from (JSON_stringify symptom)).

Definition ReadSymptom (id : string) : tx string :=
  await symptomJSON := getState id in
  if (String.length symptomJSON =? 0)%nat then
    tx_throw (new_Error (does_not_exist_message id))
  else tx_ret (Buffer_toString symptomJSON).

Definition SymptomExists (id : string) : tx bool :=
  await symptomJSON := getState id in
  tx_ret (0 <? String.length symptomJSON)%nat.

Definition UpdateSymptom (id comment owner : string) (symptomTimestamp : Z) : tx unit :=
  await exists_ := SymptomExists id in
  if negb exists_ then tx_throw (new_Error (does_not_exist_message id))
  else
    let updatedSymptom := {| ID := id; Comment := comment; Owner := owner;
                             SymptomTimestamp := symptomTimestamp |} in
    putState id (Buffer_from (JSON_stringify updatedSymptom)).

Definition DeleteSymptom (id : string) : tx unit :=
  await exists_ := SymptomExists id in
  if negb exists_ then tx_throw (new_Error (does_not_exist_message id))
  else deleteState id.

End Contract.

End Chaincode.

(** ** The submission worker *)
Module Worker.
Import JS Errors.

(** Modelled from the spec: the states of a job, the error a failed job
    records and the job record (the worker's source file is not among the
    sources). *)
Inductive JobState := Pending | InProgress | Succeeded | Failed.

Inductive JobError :=
| Classified (err : value)
| RetriesExhausted
| Cancelled.

Record Job := {
  state : JobState;
  attemptCount : nat;
  transactionIds : list string;
  payload : option string;
  error : option JobError
}.

(** Modelled from the spec: the dequeue step of the submission worker
    (its source file is not among the sources). A pending job becomes in
    progress, its first attempt is made under a first identity. *)
Definition start (identity : string) (job : Job) : Job :=
  {| state := InProgress; attemptCount := 1; transactionIds := [identity];
     payload := payload job; error := error job |}.

(** Modelled from the spec: the identity of the attempt in flight is the
    last entry of [transactionIds]. *)
Definition currentIdentity (job : Job) : string :=
  List.last (transactionIds job) "".

(** Modelled from the spec: what the submission worker does when an attempt
    fails (its source file is not among the sources). The failure is
    classified and the policy consulted, both as [errors.ts] has them; an
    exhausted attempt budget or a stop decision ends the job as failed, a
    retry counts one more attempt and, for a new identity, appends it. *)
Definition on_failure (maxAttempts : nat) (fresh : string) (job : Job) (raw : value)
  : result Job :=
  let* err := handleError (currentIdentity job) raw in
  let* action := getRetryAction err in
  if (maxAttempts <=? attemptCount job)%nat then
    Ok {| state := Failed; attemptCount := attemptCount job;
          transactionIds := transactionIds job;
          payload := Datatypes.None; error := Some RetriesExhausted |}
  else
    match action with
    | RetryAction.None =>
        Ok {| state := Failed; attemptCount := attemptCount job;
              transactionIds := transactionIds job;
              payload := Datatypes.None; error := Some (Classified err) |}
    | RetryAction.WithExistingTransactionId =>
        Ok {| state := InProgress; attemptCount := S (attemptCount job);
              transactionIds := transactionIds job;
              payload := Datatypes.None; error := Datatypes.None |}
    | RetryAction.WithNewTransactionId =>
        Ok {| state := InProgress; attemptCount := S (attemptCount job);
              transactionIds := transactionIds job ++ [fresh];
              payload := Datatypes.None; error := Datatypes.None |}
    end.

End Worker.

Import JS Regex Errors.

(** ** Vocabulary of the properties *)
Module Shape.

Definition is_string (v : value) : bool :=
  match v with
  | VString _ => true
  | _ => false
  end.

(** The error has a [transactionCode] that is a string. *)
Definition has_string_code (err : value) : bool :=
  match get err "transactionCode" with
  | Ok code => is_string code
  | Throw _ => false
  end.

(** An endorsement whose [details] is a string starting with
    ['duplicate transaction found']. *)
Definition detail_is_duplicate (endorsement : value) : bool :=
  match get endorsement "details" with
  | Ok (VString details) => String.prefix "duplicate transaction found" details
  | _ => false
  end.

Definition entry_has_duplicate_detail (entry : value) : bool :=
  match get entry "endorsements" with
  | Ok (VArray endorsements) => existsb detail_is_duplicate endorsements
  | _ => false
  end.

(** The error carries a nested endorsement detail string starting with
    ['duplicate transaction found']: some element of its [errors] array
    has an [endorsements] array with such an element. *)
Definition carries_duplicate_detail (err : value) : bool :=
  match get err "errors" with
  | Ok (VArray errors) => existsb entry_has_duplicate_detail errors
  | _ => false
  end.

(** The shape the type assertion in [isDuplicateTransactionError] names,
    [{ errors: { endorsements: { details: string }[] }[] }], where any of
    the three properties, and any element, may also be missing
    ([undefined] or [null]). *)
Definition endorsement_shaped (endorsement : value) : bool :=
  match opt_get endorsement "details" with
  | Ok details => is_nullish details || is_string details
  | Throw _ => false
  end.

Definition entry_shaped (entry : value) : bool :=
  match opt_get entry "endorsements" with
  | Ok (VArray endorsements) => forallb endorsement_shaped endorsements
  | Ok endorsements => is_nullish endorsements
  | Throw _ => false
  end.

Definition errors_shaped (err : value) : bool :=
  match opt_get err "errors" with
  | Ok (VArray errors) => forallb entry_shaped errors
  | Ok errors => is_nullish errors
  | Throw _ => false
  end.

(** The two arrow functions of [isDuplicateTransactionError], named. *)
Definition endorsement_callback (endorsement : value) : result value :=
  let* details := opt_get endorsement "details" in
  opt_startsWith details "duplicate transaction found".

Definition entry_callback (err : value) : result value :=
  let* endorsements := opt_get err "endorsements" in
  opt_some endorsements endorsement_callback.

(** What [handleError] answers for an error-like value with the given
    message: the first pattern that matches decides. *)
Definition classified (transactionId message : string) (err : value) : value :=
  match matchSymptomAlreadyExistsMessage message with
  | Some m => new_SymptomExistsError m transactionId
  | Datatypes.None =>
      match matchSymptomDoesNotExistMessage message with
      | Some m => new_SymptomNotFoundError m transactionId
      | Datatypes.None =>
          match matchTransactionDoesNotExistMessage message with
          | Some m => new_TransactionNotFoundError m transactionId
          | Datatypes.None => err
          end
      end
  end.

(** No space character occurs in the text. *)
Fixpoint no_space (s : string) : bool :=
  match s with
  | EmptyString => true
  | String c s' => negb (Ascii.eqb c " ") && no_space s'
  end.

End Shape.

Import Shape.

(** ** symptomTransfer.ts, the seeding of the ledger *)
Module Seeding.
Import JS Chaincode.

(** [for (const x of xs) { await body(x); }] *)
Fixpoint for_of {A : Type} (xs : list A) (body : A → tx unit) : tx unit :=
  match xs with
  | [] => tx_ret tt
  | x :: rest => await done := body x in for_of rest body
  end.

(** The array literal of [InitLedger]; the two readings of the clock,
    [new Date().getTime()], are inputs. *)
Definition symptoms (now1 now2 : Z) : list Symptom :=
  [ {| ID := "symptom1"; Comment := "Heart ache"; Owner := "Brad";
       SymptomTimestamp := now1 |};
    {| ID := "symptom1"; Comment := "Stomach pain"; Owner := "Brad";
       SymptomTimestamp := now2 |} ].

Section InitLedger.

(** [JSON.stringify] on a symptom object that has received a [docType]
    property after its four fields. *)
Variable JSON_stringify_with_docType : Symptom → string → string.

Definition InitLedger (now1 now2 : Z) : tx unit :=
  for_of (symptoms now1 now2) (fun symptom =>
    let docType := "symptom" in
    putState (ID symptom)
      (Buffer_from (JSON_stringify_with_docType symptom docType))).

End InitLedger.

End Seeding.

(** ** The route [GET /:symptomId] of the symptoms router *)
Module Router.
Import JS Chaincode.

(** The status codes the router uses, from http-status-codes. *)
Inductive StatusCode :=
| ACCEPTED
| BAD_REQUEST
| INTERNAL_SERVER_ERROR
| NOT_FOUND
| OK.

Definition code_number (c : StatusCode) : Z :=
  match c with
  | ACCEPTED => 202
  | BAD_REQUEST => 400
  | INTERNAL_SERVER_ERROR => 500
  | NOT_FOUND => 404
  | OK => 200
  end.

(** [getReasonPhrase] of http-status-codes on these codes. *)
Definition getReasonPhrase (c : StatusCode) : string :=
  match c with
  | ACCEPTED => "Accepted"
  | BAD_REQUEST => "Bad Request"
  | INTERNAL_SERVER_ERROR => "Internal Server Error"
  | NOT_FOUND => "Not Found"
  | OK => "OK"
  end.

(** [res.status(code).json(body)] *)
Record Response := {
  status : StatusCode;
  json : value
}.

(** The value a [catch] clause receives. A [TypeError] raised by the engine
    is an error object of a built-in class: an instance of [Error] and of
    none of the classes of [errors.ts]; a plain error object stands for it. *)
Definition caught (e : exn) : value :=
  match e with
  | TypeError => VObject ErrorC [("name", VString "TypeError")]
  | Thrown v => v
  end.

Section ReadRoute.

(** [JSON.parse]: a value, or a [SyntaxError] for a text that is no JSON. *)
Variable JSON_parse : string → option value.

(** The handler of [GET /:symptomId]. Its inputs are the outcome of
    [evatuateTransaction(contract, 'ReadSymptom', symptomId)], which
    answers a buffer or throws, and the time of the response,
    [new Date().toISOString()]. *)
Definition readSymptomRoute (evaluated : result string) (now : string) : Response :=
  let attempt :=
    let* data := evaluated in
    match JSON_parse (Buffer_toString data) with
    | Some symptom => Ok symptom
    | Datatypes.None => Throw (Thrown (VObject ErrorC [("name", VString "SyntaxError")]))
    end in
  match attempt with
  | Ok symptom => {| status := OK; json := symptom |}
  | Throw e =>
      let err := caught e in
      if instanceof err SymptomNotFoundErrorC then
        {| status := NOT_FOUND;
           json := VObject ObjectC [("status", VString (getReasonPhrase NOT_FOUND));
                                    ("timestamp", VString now)] |}
      else
        {| status := INTERNAL_SERVER_ERROR;
           json := VObject ObjectC
                     [("status", VString (getReasonPhrase INTERNAL_SERVER_ERROR));
                      ("timestamp", VString now)] |}
  end.

End ReadRoute.

End Router.

(** ** What the expressions denote *)
Module Language.

(** Every character of the text is in the class. *)
Fixpoint all_chars (p : ascii → bool) (s : string) : bool :=
  match s with
  | EmptyString => true
  | String c s' => p c && all_chars p s'
  end.

(** The texts an expression matches from their first to their last
    character. *)
Fixpoint lang (r : regex) (s : string) : Prop :=
  match r with
  | Eps => s = ""
  | Chr p => ∃ c, s = String c "" ∧ p c = true
  | Seq r1 r2 => ∃ s1 s2, s = s1 +:+ s2 ∧ lang r1 s1 ∧ lang r2 s2
  | Alt r1 r2 => lang r1 s ∨ lang r2 s
  | Opt r1 => s = "" ∨ lang r1 s
  | Star p => all_chars p s = true
  end.

(** The text is empty or starts with a character outside the class. *)
Definition stops (p : ascii → bool) (s : string) : bool :=
  match s with
  | EmptyString => true
  | String c _ => negb (p c)
  end.

(** [m] occurs in [s]. *)
Definition occurs_in (m s : string) : Prop := ∃ pre post, s = pre +:+ m +:+ post.

End Language.

Import Language.

(** * Properties *)

(** ** The retry decision *)
Section RetryDecision.

Implicit Type err : value.

Example class_hierarchy :
  extends SymptomNotFoundErrorC ContractErrorC = true
  ∧ extends SymptomNotFoundErrorC ErrorC = true
  ∧ extends ErrorC ContractErrorC = false
  ∧ extends ContractErrorC TimeoutErrorC = false
  ∧ extends TimeoutErrorC ErrorC = true.
Proof. repeat split. Qed.

Example getRetryAction_of_nothing :
  getRetryAction VUndefined = Ok RetryAction.WithNewTransactionId
  ∧ getRetryAction VNull = Ok RetryAction.WithNewTransactionId
  ∧ getRetryAction (VString "boom") = Ok RetryAction.WithNewTransactionId.
Proof. repeat split. Qed.

Lemma getRetryAction_duplicate err :
  isDuplicateTransactionError err = Ok true →
  getRetryAction err = Ok RetryAction.None.
Proof. intros H. unfold getRetryAction. now rewrite H. Qed.

Lemma getRetryAction_not_duplicate err :
  isDuplicateTransactionError err = Ok false →
  getRetryAction err =
    Ok (if instanceof err ContractErrorC then RetryAction.None
        else if instanceof err TimeoutErrorC
             then RetryAction.WithExistingTransactionId
             else RetryAction.WithNewTransactionId).
Proof.
  intros H. unfold getRetryAction. rewrite H. simpl.
  destruct (instanceof err ContractErrorC); [reflexivity |].
  now destruct (instanceof err TimeoutErrorC).
Qed.

Lemma getRetryAction_raises err e :
  isDuplicateTransactionError err = Throw e →
  getRetryAction err = Throw e.
Proof. intros H. unfold getRetryAction. now rewrite H. Qed.

(** No object is both a contract error and a timeout error. *)
Lemma contract_not_timeout err :
  instanceof err ContractErrorC = true → instanceof err TimeoutErrorC = false.
Proof. destruct err as [| | | | | |c fs]; simpl; try discriminate. now destruct c. Qed.

Lemma get_not_nullish err k v : get err k = Ok v → is_nullish err = false.
Proof. now destruct err. Qed.

Lemma strict_eq_nullish err :
  strict_eq err VUndefined || strict_eq err VNull = is_nullish err.
Proof. now destruct err. Qed.

Lemma has_string_code_typeof err :
  typeof_is_string err "transactionCode" = Ok true ↔ has_string_code err = true.
Proof.
  unfold typeof_is_string, has_string_code.
  destruct (get err "transactionCode") as [code|]; simpl; [|split; discriminate].
  destruct code; simpl; split; intros H; try discriminate; reflexivity.
Qed.

Lemma no_string_code_typeof err :
  is_nullish err = false → has_string_code err = false →
  typeof_is_string err "transactionCode" = Ok false.
Proof.
  unfold typeof_is_string, has_string_code. intros Hn.
  destruct err; try discriminate; simpl; try reflexivity.
  now destruct (match own_property _ _ with Some x => x | Datatypes.None => _ end).
Qed.

(** With a string [transactionCode] only the code decides. *)
Lemma isDuplicate_by_code err code :
  get err "transactionCode" = Ok (VString code) →
  isDuplicateTransactionError err = Ok (String.eqb code "DUPLICATE_TXID").
Proof.
  intros H. unfold isDuplicateTransactionError.
  rewrite strict_eq_nullish, (get_not_nullish _ _ _ H).
  unfold typeof_is_string. rewrite H. simpl.
  now destruct (String.eqb code "DUPLICATE_TXID").
Qed.

End RetryDecision.

(** ** The scan of the endorsement details *)
Section DuplicateScan.

(** On a list whose elements the callback handles without raising,
    [some] is the disjunction of the callback's verdicts. *)
Lemma some_loop_existsb (f : value → result value) (shaped verdict : value → bool) xs :
  (∀ x, shaped x = true → ∃ v, f x = Ok v ∧ truthy v = verdict x) →
  forallb shaped xs = true →
  some_loop f xs = Ok (VBool (existsb verdict xs)).
Proof.
  intros Hf. induction xs as [|x xs IH]; simpl; [reflexivity |].
  intros [Hx Hxs]%andb_prop.
  destruct (Hf x Hx) as (v & -> & <-). simpl.
  destruct (truthy v); simpl; [reflexivity | now apply IH].
Qed.

Lemma isDuplicateTransactionError_unfold err :
  isDuplicateTransactionError err =
    if strict_eq err VUndefined || strict_eq err VNull then Ok false
    else
      let* code_is_string := typeof_is_string err "transactionCode" in
      let* isDuplicate :=
        if code_is_string then
          let* code := get err "transactionCode" in
          Ok (VBool (strict_eq code (VString "DUPLICATE_TXID")))
        else
          let* errors := opt_get err "errors" in
          opt_some errors entry_callback
      in
      Ok (strict_eq isDuplicate (VBool true)).
Proof. reflexivity. Qed.

Lemma endorsement_callback_shaped endorsement :
  endorsement_shaped endorsement = true →
  ∃ v, endorsement_callback endorsement = Ok v
       ∧ truthy v = detail_is_duplicate endorsement.
Proof.
  unfold endorsement_shaped, endorsement_callback, detail_is_duplicate, opt_get.
  destruct (is_nullish endorsement) eqn:Hn.
  - intros _. exists VUndefined. split; [reflexivity |].
    now destruct endorsement.
  - destruct (get endorsement "details") as [details|]; [|discriminate].
    simpl. destruct details; simpl; try discriminate; intros _; eauto.
Qed.

Lemma entry_callback_shaped entry :
  entry_shaped entry = true →
  ∃ v, entry_callback entry = Ok v ∧ truthy v = entry_has_duplicate_detail entry.
Proof.
  unfold entry_shaped, entry_callback, entry_has_duplicate_detail, opt_get.
  destruct (is_nullish entry) eqn:Hn.
  - intros _. exists VUndefined. split; [reflexivity |]. now destruct entry.
  - destruct (get entry "endorsements") as [endorsements|]; [|discriminate].
    simpl. destruct endorsements; simpl; try discriminate; intros H; eauto.
    unfold opt_some. simpl.
    rewrite (some_loop_existsb _ _ _ _ endorsement_callback_shaped H).
    eauto.
Qed.

(** Without a string [transactionCode], and on the shape the source
    expects, [isDuplicateTransactionError] is the search for a duplicate
    detail. *)
Lemma isDuplicate_by_details err :
  has_string_code err = false →
  errors_shaped err = true →
  isDuplicateTransactionError err = Ok (carries_duplicate_detail err).
Proof.
  intros Hcode Hshape. rewrite isDuplicateTransactionError_unfold.
  rewrite strict_eq_nullish.
  destruct (is_nullish err) eqn:Hn; [now destruct err |].
  rewrite (no_string_code_typeof _ Hn Hcode). simpl.
  revert Hshape. unfold errors_shaped, carries_duplicate_detail, opt_get.
  rewrite Hn.
  destruct (get err "errors") as [errors|]; [|discriminate].
  simpl. destruct errors; simpl; try discriminate; intros H; try reflexivity.
  unfold opt_some. simpl.
  rewrite (some_loop_existsb _ _ _ _ entry_callback_shaped H). simpl.
  now destruct (existsb entry_has_duplicate_detail xs).
Qed.

(** The duplicate check raises nothing when the code is a string or the
    shape is as expected. *)
Lemma isDuplicate_returns err :
  has_string_code err || errors_shaped err = true →
  ∃ b, isDuplicateTransactionError err = Ok b.
Proof.
  destruct (has_string_code err) eqn:Hc; simpl.
  - intros _. unfold has_string_code in Hc.
    destruct (get err "transactionCode") as [code|] eqn:Hg; [|discriminate].
    destruct code; try discriminate.
    rewrite (isDuplicate_by_code _ _ Hg). eauto.
  - intros Hs. rewrite (isDuplicate_by_details _ Hc Hs). eauto.
Qed.

(** On these inputs the check answers, so if it does not answer true it
    answers false. *)
Lemma isDuplicate_not_recognised err :
  has_string_code err || errors_shaped err = true →
  isDuplicateTransactionError err ≠ Ok true →
  isDuplicateTransactionError err = Ok false.
Proof.
  intros Hsafe Hnot. destruct (isDuplicate_returns _ Hsafe) as [[|] Hb];
    [contradiction | assumption].
Qed.

End DuplicateScan.

(** ** Claims on [getRetryAction] *)
Section RetryClaims.

Implicit Type err : value.

(** C1, the claim as stated fails: [getRetryAction] receives the error only.
    With the attempt count at the maximum (5 of 5) a plain error is still
    answered with a retry under a new transaction identity, not with
    [None]. *)
Lemma getRetryAction_retries_at_max_attempts :
  (5 ≤ 5)%nat
  ∧ getRetryAction (new_Error "connection refused")
    = Ok RetryAction.WithNewTransactionId
  ∧ getRetryAction (new_Error "connection refused") ≠ Ok RetryAction.None.
Proof. split; [lia | split; [reflexivity | discriminate]]. Qed.

(** C1, as amended: the decision of [getRetryAction] depends on the error
    alone. Whatever the attempt count, also when it has reached the
    maximum, the answer is [None] exactly when
    [isDuplicateTransactionError] answers true, or answers false on a
    contract error; [WithExistingTransactionId] exactly when it answers
    false on a timeout error that is no contract error;
    [WithNewTransactionId] exactly when it answers false on an error that
    is neither; and [getRetryAction] raises exactly what
    [isDuplicateTransactionError] raises. *)
Theorem getRetryAction_ignores_attempt_count :
  ∀ err (attemptCount maxAttempts : nat),
    (maxAttempts ≤ attemptCount)%nat →
    (getRetryAction err = Ok RetryAction.None ↔
       isDuplicateTransactionError err = Ok true
       ∨ (isDuplicateTransactionError err = Ok false
          ∧ instanceof err ContractErrorC = true))
    ∧ (getRetryAction err = Ok RetryAction.WithExistingTransactionId ↔
         isDuplicateTransactionError err = Ok false
         ∧ instanceof err ContractErrorC = false
         ∧ instanceof err TimeoutErrorC = true)
    ∧ (getRetryAction err = Ok RetryAction.WithNewTransactionId ↔
         isDuplicateTransactionError err = Ok false
         ∧ instanceof err ContractErrorC = false
         ∧ instanceof err TimeoutErrorC = false)
    ∧ (∀ e, getRetryAction err = Throw e ↔
            isDuplicateTransactionError err = Throw e).
Proof.
  intros err _ _ _.
  destruct (isDuplicateTransactionError err) as [[|]|e] eqn:Hd.
  - rewrite (getRetryAction_duplicate _ Hd). intuition congruence.
  - rewrite (getRetryAction_not_duplicate _ Hd).
    destruct (instanceof err ContractErrorC), (instanceof err TimeoutErrorC);
      intuition congruence.
  - rewrite (getRetryAction_raises _ _ Hd). intuition congruence.
Qed.

Lemma getRetryAction_ignores_attempt_count_witness :
  (5 ≤ 5)%nat
  ∧ (getRetryAction (new_Error "connection refused")
       = Ok RetryAction.WithNewTransactionId ↔
     isDuplicateTransactionError (new_Error "connection refused") = Ok false
     ∧ instanceof (new_Error "connection refused") ContractErrorC = false
     ∧ instanceof (new_Error "connection refused") TimeoutErrorC = false)
  ∧ (∀ e, getRetryAction (new_Error "connection refused") = Throw e ↔
          isDuplicateTransactionError (new_Error "connection refused") = Throw e).
Proof.
  split; [lia |].
  destruct (getRetryAction_ignores_attempt_count
              (new_Error "connection refused") 5 5) as (_ & _ & Hnew & Hraise);
    [lia |].
  split; [exact Hnew | exact Hraise].
Defined.

(** C2, the claim as stated fails: a string [transactionCode] other than
    ['DUPLICATE_TXID'] hides a duplicate detail among the endorsements, and
    a contract error whose [errors] is not an array makes the duplicate
    check raise a [TypeError] before the class is looked at. *)
Lemma getRetryAction_duplicate_detail_not_stopped :
  carries_duplicate_detail
    (VObject ErrorC
       [("message", VString "commit failed");
        ("transactionCode", VString "MVCC_READ_CONFLICT");
        ("errors",
         VArray [VObject ObjectC
           [("endorsements",
             VArray [VObject ObjectC
               [("details", VString "duplicate transaction found")]])]])]) = true
  ∧ getRetryAction
      (VObject ErrorC
         [("message", VString "commit failed");
          ("transactionCode", VString "MVCC_READ_CONFLICT");
          ("errors",
           VArray [VObject ObjectC
             [("endorsements",
               VArray [VObject ObjectC
                 [("details", VString "duplicate transaction found")]])]])])
    = Ok RetryAction.WithNewTransactionId
  ∧ instanceof
      (VObject ContractErrorC
         [("message", VString "rejected"); ("errors", VNumber 5)])
      ContractErrorC = true
  ∧ getRetryAction
      (VObject ContractErrorC
         [("message", VString "rejected"); ("errors", VNumber 5)])
    = Throw TypeError.
Proof. repeat split. Qed.

(** C2, as amended: [getRetryAction] returns [None] for every error whose
    [transactionCode] is the string ['DUPLICATE_TXID']; for every error
    without a string [transactionCode] that carries, in [errors] and
    [endorsements] of the expected shape, an endorsement detail string
    starting with ['duplicate transaction found']; and for every contract
    error that has a string [transactionCode] or [errors] of the expected
    shape. *)
Theorem getRetryAction_stops_on_duplicate_or_contract_error :
  ∀ err,
    get err "transactionCode" = Ok (VString "DUPLICATE_TXID")
    ∨ (has_string_code err = false
       ∧ errors_shaped err = true
       ∧ carries_duplicate_detail err = true)
    ∨ (instanceof err ContractErrorC = true
       ∧ has_string_code err || errors_shaped err = true) →
    getRetryAction err = Ok RetryAction.None.
Proof.
  intros err [Hcode | [(Hcode & Hshape & Hdup) | (Hclass & Hsafe)]].
  - apply getRetryAction_duplicate. now rewrite (isDuplicate_by_code _ _ Hcode).
  - apply getRetryAction_duplicate.
    now rewrite (isDuplicate_by_details _ Hcode Hshape), Hdup.
  - destruct (isDuplicate_returns _ Hsafe) as [[|] Hb].
    + now apply getRetryAction_duplicate.
    + now rewrite (getRetryAction_not_duplicate _ Hb), Hclass.
Qed.

Lemma getRetryAction_stops_on_duplicate_or_contract_error_witness :
  getRetryAction
    (VObject TransactionErrorC
       [("message", VString "commit failed");
        ("transactionCode", VString "DUPLICATE_TXID")]) = Ok RetryAction.None
  ∧ getRetryAction
      (VObject ErrorC
         [("message", VString "no valid responses");
          ("errors",
           VArray [VObject ObjectC
             [("endorsements",
               VArray [VObject ObjectC
                 [("details", VString "duplicate transaction found")]])]])])
    = Ok RetryAction.None
  ∧ getRetryAction (new_SymptomNotFoundError "asset a1 does not exist" "tx1")
    = Ok RetryAction.None.
Proof.
  split; [|split].
  - apply getRetryAction_stops_on_duplicate_or_contract_error.
    left. reflexivity.
  - apply getRetryAction_stops_on_duplicate_or_contract_error.
    right; left. repeat split.
  - apply getRetryAction_stops_on_duplicate_or_contract_error.
    right; right. split; reflexivity.
Defined.

(** C3, the claim as stated fails: a timeout error whose [errors] is not an
    array is not recognised as a duplicate transaction and is no contract
    error, yet the duplicate check raises a [TypeError] on it and no retry
    action is returned. *)
Lemma getRetryAction_timeout_malformed_raises :
  instanceof
    (VObject TimeoutErrorC
       [("message", VString "timed out"); ("errors", VNumber 5)])
    TimeoutErrorC = true
  ∧ isDuplicateTransactionError
      (VObject TimeoutErrorC
         [("message", VString "timed out"); ("errors", VNumber 5)]) ≠ Ok true
  ∧ instanceof
      (VObject TimeoutErrorC
         [("message", VString "timed out"); ("errors", VNumber 5)])
      ContractErrorC = false
  ∧ getRetryAction
      (VObject TimeoutErrorC
         [("message", VString "timed out"); ("errors", VNumber 5)])
    = Throw TypeError
  ∧ getRetryAction
      (VObject TimeoutErrorC
         [("message", VString "timed out"); ("errors", VNumber 5)])
    ≠ Ok RetryAction.WithExistingTransactionId.
Proof. repeat split; discriminate. Qed.

(** C3, as amended: a timeout error that has a string [transactionCode] or
    whose [errors], [endorsements] and [details] are, where present, of the
    expected shape, that is not recognised as a duplicate transaction and
    is not a contract error, is retried under the existing transaction
    identity. *)
Theorem getRetryAction_timeout :
  ∀ err,
    instanceof err TimeoutErrorC = true →
    has_string_code err || errors_shaped err = true →
    isDuplicateTransactionError err ≠ Ok true →
    instanceof err ContractErrorC = false →
    getRetryAction err = Ok RetryAction.WithExistingTransactionId.
Proof.
  intros err Ht Hsafe Hnot Hc.
  pose proof (isDuplicate_not_recognised _ Hsafe Hnot) as Hd.
  now rewrite (getRetryAction_not_duplicate _ Hd), Hc, Ht.
Qed.

Lemma getRetryAction_timeout_witness :
  getRetryAction
    (VObject TimeoutErrorC
       [("message", VString "Event strategy not satisfied within the timeout period");
        ("name", VString "TimeoutError")])
  = Ok RetryAction.WithExistingTransactionId.
Proof. apply getRetryAction_timeout; [reflexivity | reflexivity | discriminate | reflexivity]. Defined.

(** C4, the claim as stated fails: a plain error whose [errors] is a string
    is not recognised as a duplicate transaction, is no contract error and
    no timeout error, yet the duplicate check raises a [TypeError] on it
    and no retry action is returned. *)
Lemma getRetryAction_other_malformed_raises :
  isDuplicateTransactionError
    (VObject ErrorC
       [("message", VString "peer unavailable"); ("errors", VString "none")])
  ≠ Ok true
  ∧ instanceof
      (VObject ErrorC
         [("message", VString "peer unavailable"); ("errors", VString "none")])
      ContractErrorC = false
  ∧ instanceof
      (VObject ErrorC
         [("message", VString "peer unavailable"); ("errors", VString "none")])
      TimeoutErrorC = false
  ∧ getRetryAction
      (VObject ErrorC
         [("message", VString "peer unavailable"); ("errors", VString "none")])
    = Throw TypeError
  ∧ getRetryAction
      (VObject ErrorC
         [("message", VString "peer unavailable"); ("errors", VString "none")])
    ≠ Ok RetryAction.WithNewTransactionId.
Proof. repeat split; discriminate. Qed.

(** C4, as amended: an error that has a string [transactionCode] or whose
    [errors], [endorsements] and [details] are, where present, of the
    expected shape, that is not recognised as a duplicate transaction, is
    not a contract error and is not a timeout error, is retried under a new
    transaction identity. *)
Theorem getRetryAction_other_error :
  ∀ err,
    has_string_code err || errors_shaped err = true →
    isDuplicateTransactionError err ≠ Ok true →
    instanceof err ContractErrorC = false →
    instanceof err TimeoutErrorC = false →
    getRetryAction err = Ok RetryAction.WithNewTransactionId.
Proof.
  intros err Hsafe Hnot Hc Ht.
  pose proof (isDuplicate_not_recognised _ Hsafe Hnot) as Hd.
  now rewrite (getRetryAction_not_duplicate _ Hd), Hc, Ht.
Qed.

Lemma getRetryAction_other_error_witness :
  getRetryAction
    (VObject ErrorC
       [("message", VString "No valid responses from any peers");
        ("errors",
         VArray [VObject ObjectC
           [("endorsements",
             VArray [VObject ObjectC
               [("details", VString "chaincode response 500")]])]])])
  = Ok RetryAction.WithNewTransactionId.
Proof. apply getRetryAction_other_error; [reflexivity | discriminate | reflexivity | reflexivity]. Defined.

End RetryClaims.

(** ** [isErrorLike] and [handleError] *)
Section Classifier.

Implicit Type err : value.

(** The guard never raises: [undefined] and [null] are excluded before any
    property is read. *)
Lemma isErrorLike_returns err : ∃ b, isErrorLike err = Ok b.
Proof.
  destruct err as [| | | | | |c fields]; try (eexists; reflexivity).
  unfold isErrorLike, and_then, or_else, typeof_is_string. simpl.
  repeat match goal with
         | |- context [match ?x with Some _ => _ | Datatypes.None => _ end] =>
             destruct x
         | |- context [typeof ?v] => destruct v; simpl
         | |- context [inherited_property ?c ?k] =>
             destruct (inherited_property c k); simpl
         end; eexists; reflexivity.
Qed.

(** An error-like value has a string [message]. *)
Lemma isErrorLike_message err :
  isErrorLike err = Ok true → ∃ message, message_of err = Ok message.
Proof.
  destruct err as [| | | | | |c fields]; try discriminate.
  unfold isErrorLike, and_then, or_else, typeof_is_string, message_of. simpl.
  destruct (typeof _ =? "string")%string; simpl; [|discriminate].
  destruct (match own_property "message" fields with
            | Some x => x
            | Datatypes.None => _
            end) as [| | | |s| |]; simpl; try discriminate.
  eauto.
Qed.

Lemma handleError_error_like transactionId err message :
  isErrorLike err = Ok true →
  message_of err = Ok message →
  handleError transactionId err = Ok (classified transactionId message err).
Proof.
  intros He Hm. unfold handleError, classified. rewrite He. simpl.
  rewrite Hm. simpl.
  destruct (matchSymptomAlreadyExistsMessage message); [reflexivity |].
  destruct (matchSymptomDoesNotExistMessage message); [reflexivity |].
  now destruct (matchTransactionDoesNotExistMessage message).
Qed.

Lemma handleError_not_error_like transactionId err :
  isErrorLike err = Ok false → handleError transactionId err = Ok err.
Proof. intros He. unfold handleError. now rewrite He. Qed.

Lemma handleError_returns transactionId err :
  ∃ v, handleError transactionId err = Ok v.
Proof.
  destruct (isErrorLike_returns err) as [[|] He].
  - destruct (isErrorLike_message _ He) as [message Hm].
    rewrite (handleError_error_like _ _ _ He Hm). eauto.
  - rewrite (handleError_not_error_like _ _ He). eauto.
Qed.

End Classifier.

(** ** Claims on [handleError] *)
Section ClassifierClaims.

Implicit Type err : value.

(** C5: for every error-like input the patterns are tried in the order
    already-exists, does-not-exist, transaction-not-found, and the first one
    that matches the message determines the classified error, whatever the
    later ones would answer. *)
Theorem handleError_pattern_priority :
  ∀ transactionId err message,
    isErrorLike err = Ok true →
    message_of err = Ok message →
    (∀ m, matchSymptomAlreadyExistsMessage message = Some m →
          handleError transactionId err = Ok (new_SymptomExistsError m transactionId))
    ∧ (∀ m, matchSymptomAlreadyExistsMessage message = Datatypes.None →
            matchSymptomDoesNotExistMessage message = Some m →
            handleError transactionId err
            = Ok (new_SymptomNotFoundError m transactionId))
    ∧ (∀ m, matchSymptomAlreadyExistsMessage message = Datatypes.None →
            matchSymptomDoesNotExistMessage message = Datatypes.None →
            matchTransactionDoesNotExistMessage message = Some m →
            handleError transactionId err
            = Ok (new_TransactionNotFoundError m transactionId)).
Proof.
  intros transactionId err message He Hm.
  rewrite (handleError_error_like _ _ _ He Hm). unfold classified.
  repeat split; intros m.
  - now intros ->.
  - now intros -> ->.
  - now intros -> -> ->.
Qed.

(** A message on which all three patterns match is classified by the first
    one, and one on which the last two match by the second. *)
Lemma handleError_pattern_priority_witness :
  handleError "tx1"
    (new_Error
       ("asset a1 already exists; asset a2 does not exist; " +:+
        "Failed to get transaction with id 7, error Entry not found in index"))
  = Ok (new_SymptomExistsError "asset a1 already exists" "tx1")
  ∧ handleError "tx1"
      (new_Error
         ("asset a2 does not exist; " +:+
          "Failed to get transaction with id 7, error Entry not found in index"))
    = Ok (new_SymptomNotFoundError "asset a2 does not exist" "tx1")
  ∧ handleError "tx1"
      (new_Error
         "Failed to get transaction with id 7, error Entry not found in index")
    = Ok (new_TransactionNotFoundError
            "Failed to get transaction with id 7, error Entry not found in index"
            "tx1").
Proof.
  split; [|split].
  - eapply handleError_pattern_priority; reflexivity.
  - eapply handleError_pattern_priority; reflexivity.
  - eapply handleError_pattern_priority; reflexivity.
Defined.

(** C6, the claim as stated fails: an error-like value whose message
    matches none of the patterns comes back from [handleError] as it went
    in, a plain error of no contract error class. *)
Lemma handleError_passes_raw_error_through :
  isErrorLike (new_Error "connection refused") = Ok true
  ∧ matchSymptomAlreadyExistsMessage "connection refused" = Datatypes.None
  ∧ matchSymptomDoesNotExistMessage "connection refused" = Datatypes.None
  ∧ matchTransactionDoesNotExistMessage "connection refused" = Datatypes.None
  ∧ handleError "tx1" (new_Error "connection refused")
    = Ok (new_Error "connection refused")
  ∧ instanceof (new_Error "connection refused") ContractErrorC = false.
Proof. repeat split. Qed.

(** C6, as amended: for every error-like input whose message matches none
    of the three patterns, [handleError] returns the input unchanged; the
    retry policy then decides on that raw error and, when it has a string
    [transactionCode] or [errors], [endorsements] and [details] of the
    expected shape, answers with a new transaction identity unless the
    error is recognised as a duplicate, is a contract error or is a timeout
    error. *)
Theorem handleError_unmatched_unchanged :
  ∀ transactionId err message,
    isErrorLike err = Ok true →
    message_of err = Ok message →
    matchSymptomAlreadyExistsMessage message = Datatypes.None →
    matchSymptomDoesNotExistMessage message = Datatypes.None →
    matchTransactionDoesNotExistMessage message = Datatypes.None →
    handleError transactionId err = Ok err
    ∧ (has_string_code err || errors_shaped err = true →
       isDuplicateTransactionError err ≠ Ok true →
       instanceof err ContractErrorC = false →
       instanceof err TimeoutErrorC = false →
       (let* classified := handleError transactionId err in
        getRetryAction classified) = Ok RetryAction.WithNewTransactionId).
Proof.
  intros transactionId err message He Hm Ha Hb Hc.
  rewrite (handleError_error_like _ _ _ He Hm). unfold classified.
  rewrite Ha, Hb, Hc. split; [reflexivity |].
  intros Hsafe Hnot Hcl Ht. simpl.
  pose proof (isDuplicate_not_recognised _ Hsafe Hnot) as Hd.
  now rewrite (getRetryAction_not_duplicate _ Hd), Hcl, Ht.
Qed.

Lemma handleError_unmatched_unchanged_witness :
  handleError "tx1" (new_Error "connection refused")
  = Ok (new_Error "connection refused")
  ∧ (let* classified := handleError "tx1" (new_Error "connection refused") in
     getRetryAction classified) = Ok RetryAction.WithNewTransactionId.
Proof.
  destruct (handleError_unmatched_unchanged "tx1"
              (new_Error "connection refused") "connection refused")
    as [H1 H2]; try reflexivity.
  split; [exact H1 | apply H2; [reflexivity | discriminate | reflexivity | reflexivity]].
Defined.

(** C7, the claim as stated fails: on an object whose [errors] is not an
    array, or whose [endorsements] is not an array, or whose [details] is
    not a string, [getRetryAction] raises a [TypeError]. *)
Lemma getRetryAction_raises_on_malformed_errors :
  getRetryAction (VObject ObjectC [("errors", VNumber 5)]) = Throw TypeError
  ∧ getRetryAction
      (VObject ObjectC
         [("errors", VArray [VObject ObjectC [("endorsements", VString "none")]])])
    = Throw TypeError
  ∧ getRetryAction
      (VObject ObjectC
         [("errors",
           VArray [VObject ObjectC
             [("endorsements", VArray [VObject ObjectC [("details", VNumber 5)]])]])])
    = Throw TypeError.
Proof. repeat split. Qed.

(** C7, as amended: [handleError] returns a result for every transaction
    identity and every value, and [getRetryAction] returns one of its three
    actions for every value that has a string [transactionCode] or whose
    [errors], [endorsements] and [details] are, where present, arrays,
    arrays and strings; [undefined], [null], primitives and objects
    without these properties are among them. *)
Theorem handleError_and_getRetryAction_total :
  (∀ transactionId err, ∃ v, handleError transactionId err = Ok v)
  ∧ (∀ err,
       has_string_code err || errors_shaped err = true →
       ∃ action,
         getRetryAction err = Ok action
         ∧ (action = RetryAction.None
            ∨ action = RetryAction.WithExistingTransactionId
            ∨ action = RetryAction.WithNewTransactionId))
  ∧ (∀ err, is_nullish err = true → errors_shaped err = true)
  ∧ (∀ err, typeof err ≠ "object" → errors_shaped err = true)
  ∧ (∀ c fields,
       own_property "errors" fields = Datatypes.None →
       errors_shaped (VObject c fields) = true).
Proof.
  split; [exact handleError_returns |].
  split; [|split; [|split]].
  - intros err Hsafe.
    destruct (isDuplicate_returns _ Hsafe) as [[|] Hb].
    + rewrite (getRetryAction_duplicate _ Hb). eauto.
    + rewrite (getRetryAction_not_duplicate _ Hb).
      destruct (instanceof err ContractErrorC); [eauto |].
      destruct (instanceof err TimeoutErrorC); eauto 6.
  - intros err Hn. unfold errors_shaped, opt_get. now rewrite Hn.
  - intros err Ht. destruct err; try reflexivity; now elim Ht.
  - intros c fields Hown. unfold errors_shaped, opt_get. simpl.
    rewrite Hown. unfold inherited_property.
    now destruct (extends c ErrorC).
Qed.

Lemma handleError_and_getRetryAction_total_witness :
  (∃ action, getRetryAction VNull = Ok action
             ∧ (action = RetryAction.None
                ∨ action = RetryAction.WithExistingTransactionId
                ∨ action = RetryAction.WithNewTransactionId))
  ∧ (∃ action, getRetryAction (VObject ObjectC [("code", VNumber 14)]) = Ok action
               ∧ (action = RetryAction.None
                  ∨ action = RetryAction.WithExistingTransactionId
                  ∨ action = RetryAction.WithNewTransactionId))
  ∧ errors_shaped VUndefined = true
  ∧ errors_shaped (VString "boom") = true
  ∧ errors_shaped (VObject ObjectC [("code", VNumber 14)]) = true.
Proof.
  destruct handleError_and_getRetryAction_total as (_ & Hpolicy & Hnull & Hprim & Hobj).
  split; [apply Hpolicy; reflexivity |].
  split; [apply Hpolicy; reflexivity |].
  split; [apply Hnull; reflexivity |].
  split; [apply Hprim; discriminate | apply Hobj; reflexivity].
Defined.

(** C8: the message "the asset symptom1 already exists" is classified as a
    [SymptomExistsError] carrying the matched text; the retry policy
    answers [None] for it; and a job whose first attempt of at most five
    fails with it ends failed with that error after this one attempt. *)
Theorem already_exists_scenario :
  ∀ transactionId fresh job,
    matchSymptomAlreadyExistsMessage "the asset symptom1 already exists"
    = Some "the asset symptom1 already exists"
    ∧ handleError transactionId (new_Error "the asset symptom1 already exists")
      = Ok (new_SymptomExistsError "the asset symptom1 already exists" transactionId)
    ∧ instanceof
        (new_SymptomExistsError "the asset symptom1 already exists" transactionId)
        SymptomExistsErrorC = true
    ∧ getRetryAction
        (new_SymptomExistsError "the asset symptom1 already exists" transactionId)
      = Ok RetryAction.None
    ∧ Worker.on_failure 5 fresh (Worker.start transactionId job)
        (new_Error "the asset symptom1 already exists")
      = Ok {| Worker.state := Worker.Failed;
              Worker.attemptCount := 1;
              Worker.transactionIds := [transactionId];
              Worker.payload := Datatypes.None;
              Worker.error :=
                Some (Worker.Classified
                        (new_SymptomExistsError "the asset symptom1 already exists"
                           transactionId)) |}.
Proof. intros transactionId fresh job. repeat split. Qed.

End ClassifierClaims.

(** ** Running the expressions on the chaincode's message *)
Section Matching.

#[local] Arguments Ascii.eqb : simpl never.

Lemma append_empty (s : string) : "" +:+ s = s.
Proof. reflexivity. Qed.

Lemma append_cons c (s t : string) : String c s +:+ t = String c (s +:+ t).
Proof. reflexivity. Qed.

Example every_match_is_reported :
  match_g symptomAlreadyExistsRegex
    "The asset a1 already exists, asset a2 already exists"
  = Some ("The asset a1 already exists", ["asset a2 already exists"]).
Proof. reflexivity. Qed.

Example both_index_wordings_match :
  matchTransactionDoesNotExistMessage
    "Failed to get transaction with id 7, error Entry not found in index"
  = Some "Failed to get transaction with id 7, error Entry not found in index"
  ∧ matchTransactionDoesNotExistMessage
      "Failed to get transaction with id 7, error no such transaction ID [7] in index"
    = Some "Failed to get transaction with id 7, error no such transaction ID [7] in index".
Proof. split; reflexivity. Qed.

Example asset_wording_matches :
  matchSymptomAlreadyExistsMessage "Error: The asset a1 already exists!"
  = Some "The asset a1 already exists"
  ∧ matchSymptomDoesNotExistMessage "Asset a1 does not exist"
    = Some "Asset a1 does not exist"
  ∧ matchSymptomDoesNotExistMessage "the asset  does not exist"
    = Some "the asset  does not exist".
Proof. repeat split. Qed.

Lemma run_seq r1 r2 s k : run (r1 >> r2) s k = run r1 s (fun s' => run r2 s' k).
Proof. reflexivity. Qed.

Lemma run_opt r s k :
  run (Opt r) s k = match run r s k with Some x => Some x | None => k s end.
Proof. reflexivity. Qed.

Lemma run_chr_cons p c s k : run (Chr p) (String c s) k = if p c then k s else None.
Proof. reflexivity. Qed.

(** A literal consumes exactly itself. *)
Lemma run_lit l s k :
  run (lit l) s k = match strip_prefix l s with Some s' => k s' | None => None end.
Proof.
  revert s. induction l as [|a l IH]; intros s; simpl; [reflexivity |].
  destruct s as [|c s]; [reflexivity |].
  destruct (Ascii.eqb a c); [apply IH | reflexivity].
Qed.

(** A word of the literal meets a space-free text followed by a space:
    they agree up to the space or the literal does not match. *)
Lemma strip_prefix_word l1 l2 id t :
  no_space l1 = true → no_space id = true →
  strip_prefix (l1 +:+ String " " l2) (id +:+ String " " t)
  = if String.eqb l1 id then strip_prefix l2 t else None.
Proof.
  revert id. induction l1 as [|a l1 IH]; intros [|c id]; simpl.
  - reflexivity.
  - intros _ [Hc _]%andb_prop.
    rewrite Ascii.eqb_sym. now destruct (Ascii.eqb c " ").
  - intros [Ha _]%andb_prop _. now destruct (Ascii.eqb a " ").
  - intros [_ Hl]%andb_prop [_ Hid]%andb_prop.
    destruct (Ascii.eqb a c); [now apply IH | reflexivity].
Qed.

Lemma match_here_none r s : run r s Some = None → match_here r s = None.
Proof. unfold match_here. now intros ->. Qed.

Lemma exec_skip r c s :
  run r (String c s) Some = None → exec r (String c s) = exec r s.
Proof. intros H. simpl. now rewrite (match_here_none _ _ H). Qed.

(** The first element of the array of matches is the leftmost match;
    the array is empty only when there is none. *)
Lemma first_match_exec r s : first_match r s = fst <$> exec r s.
Proof.
  unfold first_match, match_g. simpl.
  now destruct (exec r s) as [[m rest]|].
Qed.

Lemma first_match_none r s : exec r s = None → first_match r s = None.
Proof. intros H. now rewrite first_match_exec, H. Qed.

(** What a match leaves unread is no longer than what it was given. *)
Lemma star_rest p s k x :
  star p s k = Some x →
  ∃ s', (String.length s' ≤ String.length s)%nat ∧ k s' = Some x.
Proof.
  induction s as [|c s IH]; simpl.
  - intros H. exists "". split; [simpl; lia | assumption].
  - assert (Hstay : k (String c s) = Some x →
                    ∃ s', (String.length s' ≤ S (String.length s))%nat
                          ∧ k s' = Some x).
    { intros H. exists (String c s). split; [simpl; lia | assumption]. }
    destruct (p c); [|exact Hstay].
    destruct (star p s k) as [y|] eqn:Hy; [|exact Hstay].
    intros [= ->]. destruct (IH eq_refl) as (s' & Hlen & Hk).
    exists s'. split; [lia | assumption].
Qed.

Lemma run_rest r s k x :
  run r s k = Some x →
  ∃ s', (String.length s' ≤ String.length s)%nat ∧ k s' = Some x.
Proof.
  revert s k x.
  induction r as [|p|r1 IH1 r2 IH2|r1 IH1 r2 IH2|r1 IH1|p]; intros s k x; simpl.
  - intros H. exists s. split; [lia | assumption].
  - destruct s as [|c s]; [discriminate |].
    destruct (p c); [|discriminate]. intros H. exists s. simpl. split; [lia | assumption].
  - intros H. apply IH1 in H as (s1 & Hlen1 & H).
    apply IH2 in H as (s2 & Hlen2 & H). exists s2. split; [lia | assumption].
  - destruct (run r1 s k) as [y|] eqn:Hy.
    + intros [= ->]. now apply IH1.
    + apply IH2.
  - destruct (run r1 s k) as [y|] eqn:Hy.
    + intros [= ->]. now apply IH1.
    + intros H. exists s. split; [lia | assumption].
  - apply star_rest.
Qed.

Lemma substring_length n s :
  (n ≤ String.length s)%nat → String.length (substring 0 n s) = n.
Proof.
  revert s. induction n as [|n IH]; intros [|c s]; simpl; try lia.
  intros H. rewrite IH; lia.
Qed.

Lemma match_here_rest r s m rest :
  match_here r s = Some (m, rest) →
  (String.length rest ≤ String.length s)%nat
  ∧ String.length m = (String.length s - String.length rest)%nat.
Proof.
  unfold match_here. destruct (run r s Some) as [x|] eqn:Hx; [|discriminate].
  intros [= <- <-]. apply run_rest in Hx as (s' & Hlen & [= ->]).
  split; [assumption |]. apply substring_length. lia.
Qed.

Lemma exec_rest r s m rest :
  exec r s = Some (m, rest) →
  (String.length rest ≤ String.length s)%nat
  ∧ (String.length rest + String.length m ≤ String.length s)%nat.
Proof.
  induction s as [|c s IH]; simpl.
  - destruct (match_here r "") as [[m' rest']|] eqn:Hh; [|discriminate].
    intros [= -> ->]. apply match_here_rest in Hh. simpl in Hh. lia.
  - destruct (match_here r (String c s)) as [[m' rest']|] eqn:Hh.
    + intros [= -> ->]. apply match_here_rest in Hh. simpl in Hh. lia.
    + intros H. apply IH in H. lia.
Qed.

(** The fuel of [match_g] is enough: more of it finds no further match. *)
Lemma match_all_fuel r n1 n2 s :
  (String.length s < n1)%nat → (String.length s < n2)%nat →
  match_all n1 r s = match_all n2 r s.
Proof.
  revert n2 s. induction n1 as [|n1 IH]; intros [|n2] s H1 H2; try lia.
  simpl. destruct (exec r s) as [[m rest]|] eqn:He; [|reflexivity].
  apply exec_rest in He as [Hrest Hm]. f_equal.
  destruct (String.eqb_spec m "") as [->|Hne].
  - destruct rest as [|c rest]; [reflexivity |]. simpl in Hrest.
    apply IH; lia.
  - assert (String.length m ≠ 0)%nat by (destruct m; [congruence | simpl; lia]).
    apply IH; lia.
Qed.

(** A character followed by a literal whose first word ends at a space,
    run on a space-free text followed by a space: whatever the text, what
    follows the space decides. *)
Lemma run_chr_lit_word p l1 l2 id t k :
  p " "%char = false →
  no_space l1 = true → no_space id = true →
  (∀ t', strip_prefix l2 t = Some t' → k t' = None) →
  run (Chr p >> lit (l1 +:+ String " " l2)) (id +:+ String " " t) k = None.
Proof.
  intros Hp Hl Hid Hk. rewrite run_seq.
  destruct id as [|c id]; rewrite ?append_empty, ?append_cons.
  - rewrite run_chr_cons. now rewrite Hp.
  - rewrite run_chr_cons. destruct (p c); [|reflexivity].
    apply andb_prop in Hid as [_ Hid].
    rewrite run_lit, (strip_prefix_word _ _ _ _ Hl Hid).
    destruct (String.eqb l1 id); [|reflexivity].
    destruct (strip_prefix l2 t) as [t'|] eqn:Ht; [now apply Hk | reflexivity].
Qed.

Lemma run_lit_word l1 l2 r id t k :
  no_space l1 = true → no_space id = true →
  (∀ t', strip_prefix l2 t = Some t' → run r t' k = None) →
  run (lit (l1 +:+ String " " l2) >> r) (id +:+ String " " t) k = None.
Proof.
  intros Hl Hid Hk.
  rewrite run_seq, run_lit, (strip_prefix_word _ _ _ _ Hl Hid).
  destruct (String.eqb l1 id); [|reflexivity].
  destruct (strip_prefix l2 t) as [t'|] eqn:Ht; [now apply Hk | reflexivity].
Qed.

(** None of the three expressions matches at the start of a space-free
    text followed by " does not exist". *)
Lemma symptomAlreadyExists_not_here id k :
  no_space id = true →
  run symptomAlreadyExistsRegex (id +:+ " does not exist") k = None.
Proof.
  intros Hid. unfold symptomAlreadyExistsRegex. rewrite run_seq, run_opt.
  rewrite (run_chr_lit_word (one_of "tT") "he" "" id "does not exist");
    [| reflexivity | reflexivity | assumption
     | intros t' [= <-]; reflexivity].
  apply (run_chr_lit_word (one_of "aA") "sset" "" id "does not exist"
           (fun s' => run (Star word >> lit " already exists") s' k));
    [reflexivity | reflexivity | assumption | intros t' [= <-]; reflexivity].
Qed.

Lemma symptomDoesNotExist_not_here id k :
  no_space id = true →
  run symptomDoesNotExistRegex (id +:+ " does not exist") k = None.
Proof.
  intros Hid. unfold symptomDoesNotExistRegex. rewrite run_seq, run_opt.
  rewrite (run_chr_lit_word (one_of "tT") "he" "" id "does not exist");
    [| reflexivity | reflexivity | assumption
     | intros t' [= <-]; reflexivity].
  apply (run_chr_lit_word (one_of "aA") "sset" "" id "does not exist"
           (fun s' => run (Star word >> lit " does not exist") s' k));
    [reflexivity | reflexivity | assumption | intros t' [= <-]; reflexivity].
Qed.

Lemma transactionDoesNotExist_not_here id k :
  no_space id = true →
  run transactionDoesNotExistRegex (id +:+ " does not exist") k = None.
Proof.
  intros Hid. unfold transactionDoesNotExistRegex.
  apply (run_lit_word "Failed" "to get transaction with id " _ id "does not exist");
    [reflexivity | assumption | intros t' [=]].
Qed.

(** The search moves on, position by position, through a space-free text. *)
Lemma exec_through_space_free r post id :
  (∀ id', no_space id' = true → run r (id' +:+ post) Some = None) →
  exec r post = None →
  no_space id = true →
  exec r (id +:+ post) = None.
Proof.
  intros Hhere Hpost. induction id as [|c id IH]; intros Hid.
  - now rewrite append_empty.
  - rewrite append_cons, exec_skip.
    + apply IH. now apply andb_prop in Hid.
    + rewrite <- append_cons. now apply Hhere.
Qed.

Ltac skip_leading_characters :=
  unfold Chaincode.does_not_exist_message;
  rewrite ?append_cons, append_empty;
  repeat (rewrite exec_skip by reflexivity).

Lemma symptomAlreadyExists_not_in_message id :
  no_space id = true →
  exec symptomAlreadyExistsRegex (Chaincode.does_not_exist_message id) = None.
Proof.
  intros Hid. skip_leading_characters.
  apply exec_through_space_free; [|reflexivity | assumption].
  intros id' Hid'. now apply symptomAlreadyExists_not_here.
Qed.

Lemma symptomDoesNotExist_not_in_message id :
  no_space id = true →
  exec symptomDoesNotExistRegex (Chaincode.does_not_exist_message id) = None.
Proof.
  intros Hid. skip_leading_characters.
  apply exec_through_space_free; [|reflexivity | assumption].
  intros id' Hid'. now apply symptomDoesNotExist_not_here.
Qed.

Lemma transactionDoesNotExist_not_in_message id :
  no_space id = true →
  exec transactionDoesNotExistRegex (Chaincode.does_not_exist_message id) = None.
Proof.
  intros Hid. skip_leading_characters.
  apply exec_through_space_free; [|reflexivity | assumption].
  intros id' Hid'. now apply transactionDoesNotExist_not_here.
Qed.

End Matching.

(** ** Claims on the chaincode *)
Section ChaincodeClaims.

Import Chaincode.

(** C9, the claim as stated fails: the symptom id is not validated, and for
    the id "asset x" the message of the chaincode contains a text the
    does-not-exist pattern matches; [handleError] then answers a
    [SymptomNotFoundError], which is not retried. *)
Lemma chaincode_message_matched_for_id_with_space :
  ReadSymptom "asset x" ∅
  = Throw (Thrown (new_Error "The symptom asset x does not exist"))
  ∧ matchSymptomDoesNotExistMessage (does_not_exist_message "asset x")
    = Some "asset x does not exist"
  ∧ handleError "tx1" (new_Error (does_not_exist_message "asset x"))
    = Ok (new_SymptomNotFoundError "asset x does not exist" "tx1")
  ∧ getRetryAction (new_SymptomNotFoundError "asset x does not exist" "tx1")
    = Ok RetryAction.None.
Proof. repeat split. Qed.

(** C9, as amended: for every symptom id without a space character, the
    message "The symptom <id> does not exist", which [ReadSymptom],
    [UpdateSymptom] and [DeleteSymptom] throw when the symptom is missing,
    is not matched by the does-not-exist pattern (nor by the other two), so
    [handleError] returns the raw error unchanged, and [getRetryAction]
    answers it with a retry under a new transaction identity. *)
Theorem chaincode_not_found_not_classified :
  ∀ (JSON_stringify : Symptom → string) (id transactionId : string),
    no_space id = true →
    (∀ (world : gmap string Buffer) comment owner symptomTimestamp,
       world !! id = Datatypes.None →
       ReadSymptom id world
       = Throw (Thrown (new_Error (does_not_exist_message id)))
       ∧ UpdateSymptom JSON_stringify id comment owner symptomTimestamp world
         = Throw (Thrown (new_Error (does_not_exist_message id)))
       ∧ DeleteSymptom id world
         = Throw (Thrown (new_Error (does_not_exist_message id))))
    ∧ matchSymptomDoesNotExistMessage (does_not_exist_message id) = Datatypes.None
    ∧ handleError transactionId (new_Error (does_not_exist_message id))
      = Ok (new_Error (does_not_exist_message id))
    ∧ getRetryAction (new_Error (does_not_exist_message id))
      = Ok RetryAction.WithNewTransactionId.
Proof.
  intros JSON_stringify id transactionId Hid.
  assert (Hb : matchSymptomDoesNotExistMessage (does_not_exist_message id)
               = Datatypes.None)
    by now apply first_match_none, symptomDoesNotExist_not_in_message.
  split; [|split; [exact Hb | split; [|reflexivity]]].
  - intros world comment owner symptomTimestamp Hmissing.
    unfold ReadSymptom, UpdateSymptom, DeleteSymptom, SymptomExists,
      tx_bind, tx_ret, getState.
    cbv beta. rewrite Hmissing. repeat split.
  - rewrite (handleError_error_like _ _ (does_not_exist_message id));
      [|reflexivity | reflexivity].
    unfold classified. rewrite Hb.
    unfold matchSymptomAlreadyExistsMessage, matchTransactionDoesNotExistMessage.
    rewrite (first_match_none _ _ (symptomAlreadyExists_not_in_message _ Hid)).
    now rewrite (first_match_none _ _ (transactionDoesNotExist_not_in_message _ Hid)).
Qed.

Lemma chaincode_not_found_not_classified_witness :
  no_space "symptom3" = true
  ∧ ReadSymptom "symptom3" ∅
    = Throw (Thrown (new_Error "The symptom symptom3 does not exist"))
  ∧ handleError "tx1" (new_Error (does_not_exist_message "symptom3"))
    = Ok (new_Error (does_not_exist_message "symptom3"))
  ∧ getRetryAction (new_Error (does_not_exist_message "symptom3"))
    = Ok RetryAction.WithNewTransactionId.
Proof.
  destruct (chaincode_not_found_not_classified (fun s => ID s) "symptom3" "tx1")
    as (Hthrown & _ & Hraw & Hretry); [reflexivity |].
  split; [reflexivity |].
  split; [|split; assumption].
  now apply (Hthrown ∅ "" "" 0%Z).
Defined.

(** C10: for every ledger state and every id [CreateSymptom] succeeds; it
    makes no existence check, so whatever the state held under the id is
    replaced by the new symptom, and the other keys are left as they were. *)
Theorem CreateSymptom_always_overwrites :
  ∀ (JSON_stringify : Symptom → string) (world : gmap string Buffer)
    (id comment owner : string) (symptomTimestamp : Z),
    ∃ world',
      CreateSymptom JSON_stringify id comment owner symptomTimestamp world
      = Ok (tt, world')
      ∧ getState id world'
        = Ok (Buffer_from
                (JSON_stringify
                   {| ID := id; Comment := comment; Owner := owner;
                      SymptomTimestamp := symptomTimestamp |}), world')
      ∧ (∀ key, key ≠ id → world' !! key = world !! key).
Proof.
  intros JSON_stringify world id comment owner symptomTimestamp.
  eexists. split; [reflexivity |]. split.
  - unfold getState. now rewrite lookup_insert_eq.
  - intros key Hkey. now rewrite lookup_insert_ne.
Qed.

(** A ledger that already holds "old" under symptom1: the creation succeeds
    and the old value is gone. *)
Lemma CreateSymptom_always_overwrites_witness :
  ∃ world',
    CreateSymptom (fun s => Comment s) "symptom1" "new" "Brad" 7
      ({["symptom1" := "old"; "symptom2" := "other"]} : gmap string Buffer)
    = Ok (tt, world')
    ∧ getState "symptom1" world' = Ok ("new", world')
    ∧ world' !! "symptom2" = Some "other".
Proof.
  destruct (CreateSymptom_always_overwrites (fun s => Comment s)
              {["symptom1" := "old"; "symptom2" := "other"]}
              "symptom1" "new" "Brad" 7)
    as (world' & Hrun & Hread & Hother).
  exists world'. split; [exact Hrun |]. split; [exact Hread |].
  rewrite (Hother "symptom2"); [|discriminate].
  rewrite lookup_insert_ne by discriminate.
  apply lookup_singleton_eq.
Defined.

End ChaincodeClaims.

(** ** The matcher against the language of the expressions *)
Section MatcherSoundness.

#[local] Arguments Ascii.eqb : simpl never.

Lemma append_assoc (a b c : string) : (a +:+ b) +:+ c = a +:+ b +:+ c.
Proof. induction a as [|x a IH]; [reflexivity |]. rewrite !append_cons. now rewrite IH. Qed.

Lemma append_empty_r (a : string) : a +:+ "" = a.
Proof. induction a as [|x a IH]; [reflexivity |]. rewrite append_cons. now rewrite IH. Qed.

Lemma length_append (a b : string) :
  String.length (a +:+ b) = (String.length a + String.length b)%nat.
Proof. induction a as [|x a IH]; [reflexivity |]. rewrite append_cons. simpl. now rewrite IH. Qed.

Lemma substring_append (a b : string) : substring 0 (String.length a) (a +:+ b) = a.
Proof.
  induction a as [|x a IH]; [now destruct b |].
  rewrite append_cons. simpl. now rewrite IH.
Qed.

Lemma star_sound p s k x :
  star p s k = Some x →
  ∃ s1 s2, s = s1 +:+ s2 ∧ all_chars p s1 = true ∧ k s2 = Some x.
Proof.
  induction s as [|c s IH]; simpl.
  - intros H. now exists "", "".
  - assert (Hstay : k (String c s) = Some x →
                    ∃ s1 s2, String c s = s1 +:+ s2
                             ∧ all_chars p s1 = true ∧ k s2 = Some x)
      by (intros H; now exists "", (String c s)).
    destruct (p c) eqn:Hp; [|exact Hstay].
    destruct (star p s k) as [y|] eqn:Hy; [|exact Hstay].
    intros [= ->]. destruct (IH eq_refl) as (s1 & s2 & -> & Hall & Hk).
    exists (String c s1), s2. rewrite append_cons. simpl. now rewrite Hp, Hall.
Qed.

(** What the matcher consumes before it hands over is in the language of
    the expression. *)
Lemma run_sound r s k x :
  run r s k = Some x →
  ∃ s1 s2, s = s1 +:+ s2 ∧ lang r s1 ∧ k s2 = Some x.
Proof.
  revert s k x.
  induction r as [|p|r1 IH1 r2 IH2|r1 IH1 r2 IH2|r1 IH1|p]; intros s k x; simpl.
  - intros H. now exists "", s.
  - destruct s as [|c s]; [discriminate |].
    destruct (p c) eqn:Hp; [|discriminate]. intros H.
    exists (String c ""), s. repeat split; eauto.
  - intros H. apply IH1 in H as (a & b & -> & Ha & H).
    apply IH2 in H as (c & d & -> & Hc & H).
    exists (a +:+ c), d. rewrite append_assoc. repeat split; eauto.
  - destruct (run r1 s k) as [y|] eqn:Hy.
    + intros [= ->]. apply IH1 in Hy as (a & b & -> & Ha & H).
      exists a, b. repeat split; auto.
    + intros H. apply IH2 in H as (a & b & -> & Ha & H).
      exists a, b. repeat split; auto.
  - destruct (run r1 s k) as [y|] eqn:Hy.
    + intros [= ->]. apply IH1 in Hy as (a & b & -> & Ha & H).
      exists a, b. repeat split; auto.
    + intros H. exists "", s. repeat split; auto.
  - apply star_sound.
Qed.

Lemma match_here_sound r s m rest :
  match_here r s = Some (m, rest) → s = m +:+ rest ∧ lang r m.
Proof.
  unfold match_here. destruct (run r s Some) as [x|] eqn:Hx; [|discriminate].
  intros [= <- <-]. apply run_sound in Hx as (a & b & -> & Ha & [= ->]).
  rewrite length_append.
  replace (String.length a + String.length x - String.length x)%nat
    with (String.length a) by lia.
  now rewrite substring_append.
Qed.

Lemma exec_sound r s m rest :
  exec r s = Some (m, rest) → ∃ pre, s = pre +:+ m +:+ rest ∧ lang r m.
Proof.
  induction s as [|c s IH]; simpl.
  - destruct (match_here r "") as [[m' rest']|] eqn:Hh; [|discriminate].
    intros [= -> ->]. apply match_here_sound in Hh as [-> Hm]. now exists "".
  - destruct (match_here r (String c s)) as [[m' rest']|] eqn:Hh.
    + intros [= -> ->]. apply match_here_sound in Hh as [-> Hm]. now exists "".
    + intros H. apply IH in H as (pre & -> & Hm). now exists (String c pre).
Qed.

(** A reported match occurs in the text and is in the language. *)
Lemma first_match_sound r s m :
  first_match r s = Some m → occurs_in m s ∧ lang r m.
Proof.
  rewrite first_match_exec.
  destruct (exec r s) as [[m' rest]|] eqn:He; [|discriminate].
  intros [= ->]. apply exec_sound in He as (pre & -> & Hm).
  split; [now exists pre, rest | assumption].
Qed.

Lemma lang_lit l s : lang (lit l) s ↔ s = l.
Proof.
  revert s. induction l as [|a l IH]; intros s; simpl; [reflexivity |].
  split.
  - intros (s1 & s2 & -> & (c & -> & Hc) & Hs2).
    apply Ascii.eqb_eq in Hc as ->. now apply IH in Hs2 as ->.
  - intros ->. exists (String a ""), l. repeat split; [|now apply IH].
    exists a. split; [reflexivity | apply Ascii.eqb_refl].
Qed.

Lemma one_of_two x y c : one_of (String x (String y "")) c = true → c = x ∨ c = y.
Proof.
  simpl. intros [H | H]%orb_prop.
  - left. symmetry. now apply Ascii.eqb_eq.
  - right. apply orb_prop in H as [H | H]; [|discriminate].
    symmetry. now apply Ascii.eqb_eq.
Qed.

(** The language of the two asset expressions, spelled out. *)
Lemma lang_asset_expression tail m :
  lang (Opt (Chr (one_of "tT") >> lit "he ") >>
        Chr (one_of "aA") >> lit "sset " >> Star word >> lit tail) m →
  ∃ article a w,
    m = article +:+ String a ("sset " +:+ w +:+ tail)
    ∧ (article = "" ∨ article = "The " ∨ article = "the ")
    ∧ (a = "a"%char ∨ a = "A"%char)
    ∧ all_chars word w = true.
Proof.
  intros (s1 & s2 & -> & Hart & s3 & s4 & -> & (a & -> & Ha)
          & s5 & s6 & -> & Hsset & w & s8 & -> & Hw & Htail).
  apply lang_lit in Hsset as ->. apply lang_lit in Htail as ->.
  simpl in Hw.
  exists s1, a, w. split; [reflexivity |].
  split; [|split; [|assumption]].
  - destruct Hart as [-> | (t1 & t2 & -> & (t & -> & Ht) & Hhe)]; [now left |].
    apply lang_lit in Hhe as ->.
    apply one_of_two in Ht as [-> | ->]; auto.
  - apply one_of_two in Ha as [-> | ->]; auto.
Qed.

End MatcherSoundness.

(** ** What the matchers report *)
Section MatchShapes.

#[local] Arguments Ascii.eqb : simpl never.

Lemma matchSymptomAlreadyExistsMessage_shape_of message m :
  matchSymptomAlreadyExistsMessage message = Some m →
  ∃ article a w,
    m = article +:+ String a ("sset " +:+ w +:+ " already exists")
    ∧ (article = "" ∨ article = "The " ∨ article = "the ")
    ∧ (a = "a"%char ∨ a = "A"%char)
    ∧ all_chars word w = true.
Proof. intros [_ Hm]%first_match_sound. now apply lang_asset_expression. Qed.

Lemma matchSymptomDoesNotExistMessage_shape_of message m :
  matchSymptomDoesNotExistMessage message = Some m →
  ∃ article a w,
    m = article +:+ String a ("sset " +:+ w +:+ " does not exist")
    ∧ (article = "" ∨ article = "The " ∨ article = "the ")
    ∧ (a = "a"%char ∨ a = "A"%char)
    ∧ all_chars word w = true.
Proof. intros [_ Hm]%first_match_sound. now apply lang_asset_expression. Qed.

Lemma matchTransactionDoesNotExistMessage_shape_of message m :
  matchTransactionDoesNotExistMessage message = Some m →
  ∃ id reason,
    m = "Failed to get transaction with id " +:+ id +:+ ", error "
        +:+ reason +:+ " in index"
    ∧ all_chars (none_of ",") id = true
    ∧ (reason = "Entry not found"
       ∨ ∃ id', reason = "no such transaction ID [" +:+ id' +:+ "]"
                ∧ all_chars (none_of "]") id' = true).
Proof.
  intros [_ Hm]%first_match_sound.
  destruct Hm as (s1 & s2 & -> & H1 & id & s4 & -> & Hid
                  & s5 & s6 & -> & H5 & reason & s8 & -> & Hreason & H8).
  apply lang_lit in H1 as ->. apply lang_lit in H5 as ->.
  apply lang_lit in H8 as ->. simpl in Hid.
  exists id, reason. split; [reflexivity |]. split; [assumption |].
  destruct Hreason as [Hr | (t1 & t2 & -> & Ht1 & id' & t4 & -> & Hid' & Ht4)].
  - left. now apply lang_lit in Hr.
  - right. apply lang_lit in Ht1 as ->. apply lang_lit in Ht4 as ->.
    exists id'. split; [reflexivity | exact Hid'].
Qed.

(** The text [matchSymptomAlreadyExistsMessage] reports occurs in the
    message and reads: "The " or "the " or nothing, "asset" or "Asset", a
    space, word characters (possibly none), " already exists". *)
Theorem matchSymptomAlreadyExistsMessage_shape :
  ∀ message m,
    matchSymptomAlreadyExistsMessage message = Some m →
    occurs_in m message
    ∧ ∃ article a w,
        m = article +:+ String a ("sset " +:+ w +:+ " already exists")
        ∧ (article = "" ∨ article = "The " ∨ article = "the ")
        ∧ (a = "a"%char ∨ a = "A"%char)
        ∧ all_chars word w = true.
Proof.
  intros message m [Hin Hm]%first_match_sound.
  split; [assumption | now apply lang_asset_expression].
Qed.

Lemma matchSymptomAlreadyExistsMessage_shape_witness :
  occurs_in "The asset a1 already exists" "Error: The asset a1 already exists!"
  ∧ ∃ article a w,
      "The asset a1 already exists"
      = article +:+ String a ("sset " +:+ w +:+ " already exists")
      ∧ (article = "" ∨ article = "The " ∨ article = "the ")
      ∧ (a = "a"%char ∨ a = "A"%char)
      ∧ all_chars word w = true.
Proof.
  apply (matchSymptomAlreadyExistsMessage_shape
           "Error: The asset a1 already exists!").
  reflexivity.
Defined.

(** The text [matchSymptomDoesNotExistMessage] reports occurs in the message
    and reads: "The " or "the " or nothing, "asset" or "Asset", a space,
    word characters (possibly none), " does not exist". *)
Theorem matchSymptomDoesNotExistMessage_shape :
  ∀ message m,
    matchSymptomDoesNotExistMessage message = Some m →
    occurs_in m message
    ∧ ∃ article a w,
        m = article +:+ String a ("sset " +:+ w +:+ " does not exist")
        ∧ (article = "" ∨ article = "The " ∨ article = "the ")
        ∧ (a = "a"%char ∨ a = "A"%char)
        ∧ all_chars word w = true.
Proof.
  intros message m [Hin Hm]%first_match_sound.
  split; [assumption | now apply lang_asset_expression].
Qed.

Lemma matchSymptomDoesNotExistMessage_shape_witness :
  occurs_in "asset a1 does not exist" "peer0: asset a1 does not exist"
  ∧ ∃ article a w,
      "asset a1 does not exist"
      = article +:+ String a ("sset " +:+ w +:+ " does not exist")
      ∧ (article = "" ∨ article = "The " ∨ article = "the ")
      ∧ (a = "a"%char ∨ a = "A"%char)
      ∧ all_chars word w = true.
Proof.
  apply (matchSymptomDoesNotExistMessage_shape "peer0: asset a1 does not exist").
  reflexivity.
Defined.

(** The text [matchTransactionDoesNotExistMessage] reports occurs in the
    message and reads "Failed to get transaction with id ", a text without
    comma, ", error ", then "Entry not found" or "no such transaction ID
    [...]" with no closing bracket inside the brackets, then " in index". *)
Theorem matchTransactionDoesNotExistMessage_shape :
  ∀ message m,
    matchTransactionDoesNotExistMessage message = Some m →
    occurs_in m message
    ∧ ∃ id reason,
        m = "Failed to get transaction with id " +:+ id +:+ ", error "
            +:+ reason +:+ " in index"
        ∧ all_chars (none_of ",") id = true
        ∧ (reason = "Entry not found"
           ∨ ∃ id', reason = "no such transaction ID [" +:+ id' +:+ "]"
                    ∧ all_chars (none_of "]") id' = true).
Proof.
  intros message m H. split.
  - now apply first_match_sound in H.
  - now apply matchTransactionDoesNotExistMessage_shape_of in H.
Qed.

Lemma matchTransactionDoesNotExistMessage_shape_witness :
  occurs_in
    "Failed to get transaction with id 7, error no such transaction ID [7] in index"
    "Failed to get transaction with id 7, error no such transaction ID [7] in index."
  ∧ ∃ id reason,
      "Failed to get transaction with id 7, error no such transaction ID [7] in index"
      = "Failed to get transaction with id " +:+ id +:+ ", error "
        +:+ reason +:+ " in index"
      ∧ all_chars (none_of ",") id = true
      ∧ (reason = "Entry not found"
         ∨ ∃ id', reason = "no such transaction ID [" +:+ id' +:+ "]"
                  ∧ all_chars (none_of "]") id' = true).
Proof.
  apply (matchTransactionDoesNotExistMessage_shape
           "Failed to get transaction with id 7, error no such transaction ID [7] in index.").
  reflexivity.
Defined.

Lemma handleError_cases :
  ∀ transactionId err v,
    handleError transactionId err = Ok v →
    v = err
    ∨ ∃ message m,
        message_of err = Ok message
        ∧ occurs_in m message
        ∧ (v = new_SymptomExistsError m transactionId
           ∨ v = new_SymptomNotFoundError m transactionId
           ∨ v = new_TransactionNotFoundError m transactionId).
Proof.
  intros transactionId err v.
  destruct (isErrorLike_returns err) as [[|] He].
  - destruct (isErrorLike_message _ He) as [message Hm].
    rewrite (handleError_error_like _ _ _ He Hm). unfold classified.
    destruct (matchSymptomAlreadyExistsMessage message) as [m|] eqn:Ha.
    { intros [= <-]. right. exists message, m.
      apply first_match_sound in Ha as [Hin _]. auto. }
    destruct (matchSymptomDoesNotExistMessage message) as [m|] eqn:Hb.
    { intros [= <-]. right. exists message, m.
      apply first_match_sound in Hb as [Hin _]. auto. }
    destruct (matchTransactionDoesNotExistMessage message) as [m|] eqn:Hc.
    { intros [= <-]. right. exists message, m.
      apply first_match_sound in Hc as [Hin _]. auto 6. }
    intros [= <-]. now left.
  - rewrite (handleError_not_error_like _ _ He). intros [= <-]. now left.
Qed.

(** [handleError] returns its input, or a new contract error that records
    the given transaction identity and whose message is a piece of the
    input's message. *)
Theorem handleError_result :
  ∀ transactionId err v,
    handleError transactionId err = Ok v →
    v = err
    ∨ ∃ message m,
        message_of err = Ok message
        ∧ occurs_in m message
        ∧ (v = new_SymptomExistsError m transactionId
           ∨ v = new_SymptomNotFoundError m transactionId
           ∨ v = new_TransactionNotFoundError m transactionId).
Proof. exact handleError_cases. Qed.

Lemma handleError_result_witness :
  new_SymptomNotFoundError "asset a1 does not exist" "tx1"
  = new_Error "peer0: asset a1 does not exist"
  ∨ ∃ message m,
      message_of (new_Error "peer0: asset a1 does not exist") = Ok message
      ∧ occurs_in m message
      ∧ (new_SymptomNotFoundError "asset a1 does not exist" "tx1"
         = new_SymptomExistsError m "tx1"
         ∨ new_SymptomNotFoundError "asset a1 does not exist" "tx1"
           = new_SymptomNotFoundError m "tx1"
         ∨ new_SymptomNotFoundError "asset a1 does not exist" "tx1"
           = new_TransactionNotFoundError m "tx1").
Proof.
  apply (handleError_result "tx1" (new_Error "peer0: asset a1 does not exist")).
  reflexivity.
Defined.

End MatchShapes.

(** ** What the matchers cannot miss *)
Section MatchCompleteness.

#[local] Arguments Ascii.eqb : simpl never.

Lemma run_alt r1 r2 s k :
  run (Alt r1 r2) s k = match run r1 s k with Some x => Some x | None => run r2 s k end.
Proof. reflexivity. Qed.

Lemma run_star p s k : run (Star p) s k = star p s k.
Proof. reflexivity. Qed.

Lemma strip_prefix_append l s : strip_prefix l (l +:+ s) = Some s.
Proof.
  induction l as [|a l IH]; [reflexivity |].
  rewrite append_cons. simpl. now rewrite Ascii.eqb_refl.
Qed.

(** A repetition followed by something that succeeds right after the
    longest run takes the longest run. *)
Lemma star_greedy p w rest k x :
  all_chars p w = true → stops p rest = true → k rest = Some x →
  star p (w +:+ rest) k = Some x.
Proof.
  intros Hw Hrest Hk. induction w as [|c w IH].
  - rewrite append_empty. destruct rest as [|c rest]; simpl; [assumption |].
    simpl in Hrest. now destruct (p c).
  - rewrite append_cons. simpl in *. apply andb_prop in Hw as [-> Hw].
    now rewrite (IH Hw).
Qed.

Lemma exec_unfold r s :
  exec r s = match match_here r s with
             | Some x => Some x
             | None => match s with
                       | String _ s' => exec r s'
                       | EmptyString => None
                       end
             end.
Proof. now destruct s. Qed.

(** A match somewhere in the text makes the search succeed. *)
Lemma first_match_finds r pre s rest :
  run r s Some = Some rest → ∃ m, first_match r (pre +:+ s) = Some m.
Proof.
  intros Hrun. rewrite first_match_exec.
  assert (H : ∃ x, exec r (pre +:+ s) = Some x).
  { induction pre as [|c pre IH].
    - rewrite append_empty, exec_unfold. unfold match_here. rewrite Hrun. eauto.
    - rewrite append_cons, exec_unfold.
      destruct (match_here r (String c (pre +:+ s))); eauto. }
  destruct H as [[m rest'] ->]. now exists m.
Qed.

(** The asset expressions match at "asset <word><tail>" when the tail
    starts with a space. *)
Lemma asset_expression_here tail a w post :
  a = "a"%char ∨ a = "A"%char →
  all_chars word w = true →
  run (Opt (Chr (one_of "tT") >> lit "he ") >>
       Chr (one_of "aA") >> lit "sset " >> Star word >> lit (String " " tail))
      (String a ("sset " +:+ w +:+ String " " tail +:+ post)) Some
  = Some post.
Proof.
  intros Ha Hw.
  assert (Hclass : one_of "tT" a = false ∧ one_of "aA" a = true)
    by (destruct Ha as [-> | ->]; split; reflexivity).
  destruct Hclass as [Ht Haa].
  rewrite run_seq, run_opt, run_seq, run_chr_cons, Ht.
  rewrite run_seq, run_chr_cons, Haa.
  rewrite run_seq, run_lit, strip_prefix_append.
  rewrite run_seq, run_star.
  apply star_greedy; [assumption | reflexivity |].
  now rewrite run_lit, strip_prefix_append.
Qed.

Lemma transaction_expression_here id reason post :
  all_chars (none_of ",") id = true →
  (reason = "Entry not found"
   ∨ ∃ id', reason = "no such transaction ID [" +:+ id' +:+ "]"
            ∧ all_chars (none_of "]") id' = true) →
  run transactionDoesNotExistRegex
      ("Failed to get transaction with id " +:+ id +:+ ", error "
       +:+ reason +:+ " in index" +:+ post) Some
  = Some post.
Proof.
  intros Hid Hreason. unfold transactionDoesNotExistRegex.
  rewrite run_seq, run_lit, strip_prefix_append.
  rewrite run_seq, run_star.
  apply star_greedy; [assumption | reflexivity |].
  rewrite run_seq, run_lit, strip_prefix_append.
  rewrite run_seq, run_alt.
  destruct Hreason as [-> | (id' & -> & Hid')].
  - rewrite run_lit, strip_prefix_append.
    now rewrite run_lit, strip_prefix_append.
  - replace (run (lit "Entry not found") _ _) with (@None string) by reflexivity.
    rewrite run_seq, run_lit, !append_assoc, strip_prefix_append.
    rewrite run_seq, run_star.
    apply star_greedy; [assumption | reflexivity |].
    rewrite run_lit, strip_prefix_append.
    now rewrite run_lit, strip_prefix_append.
Qed.

End MatchCompleteness.

(** ** Classification end to end *)
Section Classification.

Implicit Type err : value.

(** The contract errors of the module pass the duplicate check unrecognised
    and are answered [None]. *)
Lemma contract_errors_not_retried m transactionId :
  getRetryAction (new_SymptomExistsError m transactionId) = Ok RetryAction.None
  ∧ getRetryAction (new_SymptomNotFoundError m transactionId) = Ok RetryAction.None
  ∧ getRetryAction (new_TransactionNotFoundError m transactionId)
    = Ok RetryAction.None.
Proof. repeat split. Qed.

(** Whenever [handleError] replaces the error it was given, the replacement
    is an error-like contract error that carries the given transaction
    identity, and the retry policy answers [None] for it. *)
Theorem handleError_replacement_not_retried :
  ∀ transactionId err v,
    handleError transactionId err = Ok v →
    v = err
    ∨ (instanceof v ContractErrorC = true
       ∧ isErrorLike v = Ok true
       ∧ get v "transactionId" = Ok (VString transactionId)
       ∧ getRetryAction v = Ok RetryAction.None).
Proof.
  intros transactionId err v H.
  destruct (handleError_cases _ _ _ H)
    as [-> | (message & m & _ & _ & [-> | [-> | ->]])]; [now left | | |];
    right; repeat split.
Qed.

Lemma handleError_replacement_not_retried_witness :
  new_SymptomExistsError "Asset a1 already exists" "tx7"
  = new_Error "chaincode response 500, Asset a1 already exists"
  ∨ (instanceof (new_SymptomExistsError "Asset a1 already exists" "tx7")
       ContractErrorC = true
     ∧ isErrorLike (new_SymptomExistsError "Asset a1 already exists" "tx7")
       = Ok true
     ∧ get (new_SymptomExistsError "Asset a1 already exists" "tx7")
         "transactionId" = Ok (VString "tx7")
     ∧ getRetryAction (new_SymptomExistsError "Asset a1 already exists" "tx7")
       = Ok RetryAction.None).
Proof.
  apply (handleError_replacement_not_retried "tx7"
           (new_Error "chaincode response 500, Asset a1 already exists")).
  reflexivity.
Defined.

(** Every error-like input whose message contains "asset" or "Asset", a
    space, word characters and " already exists" is classified as a
    [SymptomExistsError], whatever surrounds that text. *)
Theorem handleError_finds_already_exists :
  ∀ transactionId err message pre a w post,
    isErrorLike err = Ok true →
    message_of err = Ok message →
    message = pre +:+ String a ("sset " +:+ w +:+ " already exists" +:+ post) →
    a = "a"%char ∨ a = "A"%char →
    all_chars word w = true →
    ∃ m, handleError transactionId err
         = Ok (new_SymptomExistsError m transactionId).
Proof.
  intros transactionId err message pre a w post He Hm -> Ha Hw.
  rewrite (handleError_error_like _ _ _ He Hm). unfold classified.
  destruct (first_match_finds symptomAlreadyExistsRegex pre _ post
              (asset_expression_here "already exists" a w post Ha Hw))
    as [m Hfound].
  unfold matchSymptomAlreadyExistsMessage. rewrite Hfound. eauto.
Qed.

Lemma handleError_finds_already_exists_witness :
  ∃ m, handleError "tx1" (new_Error "Error: Asset a_1 already exists (500)")
       = Ok (new_SymptomExistsError m "tx1").
Proof.
  apply (handleError_finds_already_exists "tx1" _
           "Error: Asset a_1 already exists (500)" "Error: " "A" "a_1" " (500)");
    try reflexivity.
  now right.
Defined.

Lemma does_not_exist_found transactionId err message pre a w post :
  isErrorLike err = Ok true →
  message_of err = Ok message →
  message = pre +:+ String a ("sset " +:+ w +:+ " does not exist" +:+ post) →
  a = "a"%char ∨ a = "A"%char →
  all_chars word w = true →
  matchSymptomAlreadyExistsMessage message = Datatypes.None →
  ∃ m, handleError transactionId err
       = Ok (new_SymptomNotFoundError m transactionId).
Proof.
  intros He Hm -> Ha Hw Hnone.
  rewrite (handleError_error_like _ _ _ He Hm). unfold classified.
  rewrite Hnone.
  destruct (first_match_finds symptomDoesNotExistRegex pre _ post
              (asset_expression_here "does not exist" a w post Ha Hw))
    as [m Hfound].
  unfold matchSymptomDoesNotExistMessage. rewrite Hfound. eauto.
Qed.

(** Every error-like input whose message contains "asset" or "Asset", a
    space, word characters and " does not exist", and in which the
    already-exists pattern finds nothing, is classified as a
    [SymptomNotFoundError]. *)
Theorem handleError_finds_does_not_exist :
  ∀ transactionId err message pre a w post,
    isErrorLike err = Ok true →
    message_of err = Ok message →
    message = pre +:+ String a ("sset " +:+ w +:+ " does not exist" +:+ post) →
    a = "a"%char ∨ a = "A"%char →
    all_chars word w = true →
    matchSymptomAlreadyExistsMessage message = Datatypes.None →
    ∃ m, handleError transactionId err
         = Ok (new_SymptomNotFoundError m transactionId).
Proof. intros. eapply does_not_exist_found; eauto. Qed.

Lemma handleError_finds_does_not_exist_witness :
  ∃ m, handleError "tx1" (new_Error "peer0: the asset a1 does not exist")
       = Ok (new_SymptomNotFoundError m "tx1").
Proof.
  apply (handleError_finds_does_not_exist "tx1" _
           "peer0: the asset a1 does not exist" "peer0: the " "a" "a1" "");
    try reflexivity.
  now left.
Defined.

(** Every error-like input whose message contains one of the two
    transaction-not-found wordings, and in which the two asset patterns
    find nothing, is classified as a [TransactionNotFoundError]. *)
Theorem handleError_finds_transaction_not_found :
  ∀ transactionId err message pre id reason post,
    isErrorLike err = Ok true →
    message_of err = Ok message →
    message = pre +:+ "Failed to get transaction with id " +:+ id +:+ ", error "
              +:+ reason +:+ " in index" +:+ post →
    all_chars (none_of ",") id = true →
    (reason = "Entry not found"
     ∨ ∃ id', reason = "no such transaction ID [" +:+ id' +:+ "]"
              ∧ all_chars (none_of "]") id' = true) →
    matchSymptomAlreadyExistsMessage message = Datatypes.None →
    matchSymptomDoesNotExistMessage message = Datatypes.None →
    ∃ m, handleError transactionId err
         = Ok (new_TransactionNotFoundError m transactionId).
Proof.
  intros transactionId err message pre id reason post He Hm -> Hid Hreason Ha Hb.
  rewrite (handleError_error_like _ _ _ He Hm). unfold classified.
  rewrite Ha, Hb.
  destruct (first_match_finds transactionDoesNotExistRegex pre _ post
              (transaction_expression_here id reason post Hid Hreason))
    as [m Hfound].
  unfold matchTransactionDoesNotExistMessage. rewrite Hfound. eauto.
Qed.

Lemma handleError_finds_transaction_not_found_witness :
  ∃ m, handleError "tx1"
         (new_Error
            "qscc: Failed to get transaction with id 7f, error no such transaction ID [7f] in index")
       = Ok (new_TransactionNotFoundError m "tx1").
Proof.
  apply (handleError_finds_transaction_not_found "tx1" _
           "qscc: Failed to get transaction with id 7f, error no such transaction ID [7f] in index"
           "qscc: " "7f" "no such transaction ID [7f]" "");
    try reflexivity.
  right. exists "7f". split; reflexivity.
Defined.

End Classification.

(** ** The guards *)
Section Guards.

Implicit Type err : value.

(** [isErrorLike] raises nothing, and it accepts exactly the values whose
    [name] and [message] are strings and whose [stack] is [undefined] or a
    string; own and inherited properties count alike, the class does not. *)
Theorem isErrorLike_characterised :
  ∀ err,
    (∃ b, isErrorLike err = Ok b)
    ∧ (isErrorLike err = Ok true ↔
         ∃ name message,
           get err "name" = Ok (VString name)
           ∧ get err "message" = Ok (VString message)
           ∧ (get err "stack" = Ok VUndefined
              ∨ ∃ stack, get err "stack" = Ok (VString stack))).
Proof.
  intros err. split; [apply isErrorLike_returns |].
  destruct err as [| | | | | |c fields];
    try (split; [intros H; vm_compute in H; discriminate H
                | intros (name & message & H & _); discriminate H]).
  unfold isErrorLike, and_then, or_else, typeof_is_string, loose_neq_nullish.
  cbn [is_nullish negb bind].
  destruct (get (VObject c fields) "name") as [n|] eqn:Hn; [|discriminate Hn].
  destruct (get (VObject c fields) "message") as [m|] eqn:Hm; [|discriminate Hm].
  destruct (get (VObject c fields) "stack") as [st|] eqn:Hst; [|discriminate Hst].
  cbn [bind]. split.
  - destruct n; try discriminate. destruct m; try discriminate.
    destruct st; try discriminate; intros _; eauto 8.
  - intros (name & message & [= ->] & [= ->] & [[= ->] | (stack & [= ->])]);
      reflexivity.
Qed.

(** With a string [transactionCode] the error is a duplicate exactly when
    the code is ['DUPLICATE_TXID']; nothing else of the error is read, so
    nothing is raised whatever [errors] holds. *)
Theorem isDuplicateTransactionError_code_decides :
  ∀ err code,
    get err "transactionCode" = Ok (VString code) →
    (∃ b, isDuplicateTransactionError err = Ok b)
    ∧ (isDuplicateTransactionError err = Ok true ↔ code = "DUPLICATE_TXID").
Proof.
  intros err code H. rewrite (isDuplicate_by_code _ _ H).
  split; [eauto |]. split.
  - intros [= Heq]. now apply String.eqb_eq.
  - intros ->. reflexivity.
Qed.

Lemma isDuplicateTransactionError_code_decides_witness :
  (∃ b, isDuplicateTransactionError
          (VObject TransactionErrorC
             [("transactionCode", VString "DUPLICATE_TXID");
              ("errors", VNumber 5)]) = Ok b)
  ∧ (isDuplicateTransactionError
       (VObject TransactionErrorC
          [("transactionCode", VString "DUPLICATE_TXID");
           ("errors", VNumber 5)]) = Ok true
     ↔ "DUPLICATE_TXID" = "DUPLICATE_TXID").
Proof.
  apply (isDuplicateTransactionError_code_decides
           (VObject TransactionErrorC
              [("transactionCode", VString "DUPLICATE_TXID");
               ("errors", VNumber 5)])).
  reflexivity.
Defined.

(** Without a string [transactionCode], and with [errors], [endorsements]
    and [details] of the expected shape, the error is a duplicate exactly
    when some endorsement of some entry has details starting with
    ['duplicate transaction found']. *)
Theorem isDuplicateTransactionError_scans_details :
  ∀ err,
    has_string_code err = false →
    errors_shaped err = true →
    isDuplicateTransactionError err = Ok (carries_duplicate_detail err).
Proof. exact isDuplicate_by_details. Qed.

Lemma isDuplicateTransactionError_scans_details_witness :
  isDuplicateTransactionError
    (VObject ErrorC
       [("errors",
         VArray [VNull;
                 VObject ObjectC [("endorsements", VArray [])];
                 VObject ObjectC
                   [("endorsements",
                     VArray [VObject ObjectC [("details", VString "failed")];
                             VObject ObjectC
                               [("details",
                                 VString "duplicate transaction found: tx1")]])]])])
  = Ok true.
Proof.
  apply (isDuplicateTransactionError_scans_details
           (VObject ErrorC
              [("errors",
                VArray [VNull;
                        VObject ObjectC [("endorsements", VArray [])];
                        VObject ObjectC
                          [("endorsements",
                            VArray [VObject ObjectC [("details", VString "failed")];
                                    VObject ObjectC
                                      [("details",
                                        VString "duplicate transaction found: tx1")]])]])]));
    reflexivity.
Defined.

(** [some] stops at the first element with a truthy verdict. *)
Lemma some_loop_stops (f : value → result value) (shaped verdict : value → bool)
      (xs ys : list value) :
  (∀ x, shaped x = true → ∃ v, f x = Ok v ∧ truthy v = verdict x) →
  forallb shaped xs = true →
  existsb verdict xs = true →
  some_loop f (xs ++ ys)%list = Ok (VBool true).
Proof.
  intros Hf. induction xs as [|x xs IH]; simpl; [discriminate |].
  intros [Hx Hxs]%andb_prop.
  destruct (Hf x Hx) as (v & -> & <-). simpl.
  destruct (truthy v); simpl; [reflexivity | now apply IH].
Qed.

(** The scan ends at the first entry that has a duplicate detail: what
    comes after it in [errors] is not visited and cannot raise. *)
Theorem isDuplicateTransactionError_stops_at_first_duplicate :
  ∀ err (before after : list value) entry,
    has_string_code err = false →
    get err "errors" = Ok (VArray (before ++ entry :: after)%list) →
    forallb entry_shaped before = true →
    entry_shaped entry = true →
    entry_has_duplicate_detail entry = true →
    isDuplicateTransactionError err = Ok true.
Proof.
  intros err before after entry Hcode Herrors Hbefore Hentry Hdup.
  rewrite isDuplicateTransactionError_unfold, strict_eq_nullish.
  pose proof (get_not_nullish _ _ _ Herrors) as Hn. rewrite Hn.
  rewrite (no_string_code_typeof _ Hn Hcode). simpl.
  unfold opt_get. rewrite Hn, Herrors. simpl. unfold opt_some. simpl.
  replace (before ++ entry :: after)%list
    with ((before ++ [entry]) ++ after)%list by now rewrite <- app_assoc.
  rewrite (some_loop_stops _ entry_shaped entry_has_duplicate_detail);
    [reflexivity | exact entry_callback_shaped | |].
  - rewrite forallb_app. simpl. now rewrite Hbefore, Hentry.
  - rewrite existsb_app. simpl. rewrite Hdup. now rewrite orb_true_r.
Qed.

Lemma isDuplicateTransactionError_stops_at_first_duplicate_witness :
  isDuplicateTransactionError
    (VObject ErrorC
       [("errors",
         VArray [VObject ObjectC
                   [("endorsements",
                     VArray [VObject ObjectC
                               [("details", VString "duplicate transaction found")]])];
                 VObject ObjectC [("endorsements", VNumber 5)]])])
  = Ok true.
Proof.
  apply (isDuplicateTransactionError_stops_at_first_duplicate _ []
           [VObject ObjectC [("endorsements", VNumber 5)]]
           (VObject ObjectC
              [("endorsements",
                VArray [VObject ObjectC
                          [("details", VString "duplicate transaction found")]])]));
    reflexivity.
Defined.

End Guards.

(** ** The symptom contract *)
Section Ledger.

Import Chaincode Seeding.

Implicit Type world : gmap string string.

Lemma SymptomExists_is id world :
  SymptomExists id world = Ok ((0 <? String.length (default "" (world !! id)))%nat, world).
Proof. reflexivity. Qed.

Lemma nonempty_length (s : string) : s ≠ "" → (0 <? String.length s)%nat = true.
Proof. destruct s; [congruence | reflexivity]. Qed.

(** After [CreateSymptom] the symptom exists and [ReadSymptom] returns the
    text that was stored, provided the JSON text is not empty (the text of
    an object never is). *)
Theorem CreateSymptom_then_ReadSymptom :
  ∀ (JSON_stringify : Symptom → string) world id comment owner symptomTimestamp,
    JSON_stringify {| ID := id; Comment := comment; Owner := owner;
                      SymptomTimestamp := symptomTimestamp |} ≠ "" →
    ∃ world',
      CreateSymptom JSON_stringify id comment owner symptomTimestamp world
      = Ok (tt, world')
      ∧ SymptomExists id world' = Ok (true, world')
      ∧ ReadSymptom id world'
        = Ok (JSON_stringify {| ID := id; Comment := comment; Owner := owner;
                                SymptomTimestamp := symptomTimestamp |}, world').
Proof.
  intros JSON_stringify world id comment owner symptomTimestamp Hne.
  eexists. split; [reflexivity |].
  unfold SymptomExists, ReadSymptom, tx_bind, tx_ret, getState. cbv beta.
  rewrite lookup_insert_eq. simpl. unfold Buffer_from, Buffer_toString.
  destruct (JSON_stringify _) as [|c text]; [congruence |]. now split.
Qed.

Lemma CreateSymptom_then_ReadSymptom_witness :
  ∃ world',
    CreateSymptom (fun s => "{" +:+ Comment s +:+ "}") "symptom1" "Cough" "Brad" 7 ∅
    = Ok (tt, world')
    ∧ SymptomExists "symptom1" world' = Ok (true, world')
    ∧ ReadSymptom "symptom1" world' = Ok ("{Cough}", world').
Proof.
  apply (CreateSymptom_then_ReadSymptom (fun s => "{" +:+ Comment s +:+ "}")
           ∅ "symptom1" "Cough" "Brad" 7).
  discriminate.
Defined.

(** [ReadSymptom] succeeds exactly when [SymptomExists] answers true: then
    the key holds a non-empty buffer and the read returns a text; otherwise
    the key is absent or holds the empty buffer and the read throws the
    does-not-exist error. Neither operation writes to the ledger. *)
Theorem ReadSymptom_agrees_with_SymptomExists :
  ∀ world id,
    (SymptomExists id world = Ok (true, world)
     ∧ (∃ stored, world !! id = Some stored ∧ stored ≠ "")
     ∧ ∃ returned, ReadSymptom id world = Ok (returned, world))
    ∨ (SymptomExists id world = Ok (false, world)
       ∧ (world !! id = Datatypes.None ∨ world !! id = Some "")
       ∧ ReadSymptom id world
         = Throw (Thrown (new_Error (does_not_exist_message id)))).
Proof.
  intros world id.
  unfold SymptomExists, ReadSymptom, tx_bind, tx_ret, tx_throw, getState. cbv beta.
  destruct (world !! id) as [[|c text]|] eqn:Hw; simpl.
  - right. auto.
  - left. split; [reflexivity |]. split.
    + now exists (String c text).
    + now eexists.
  - right. auto.
Qed.

(** [UpdateSymptom] is [CreateSymptom] guarded by [SymptomExists]: on an
    existing symptom it has the effect of the creation, on a missing one it
    throws the does-not-exist error and writes nothing. *)
Theorem UpdateSymptom_is_guarded_CreateSymptom :
  ∀ (JSON_stringify : Symptom → string) world id comment owner symptomTimestamp,
    ∃ found,
      SymptomExists id world = Ok (found, world)
      ∧ UpdateSymptom JSON_stringify id comment owner symptomTimestamp world
        = if found
          then CreateSymptom JSON_stringify id comment owner symptomTimestamp world
          else Throw (Thrown (new_Error (does_not_exist_message id))).
Proof.
  intros JSON_stringify world id comment owner symptomTimestamp.
  rewrite SymptomExists_is. eexists. split; [reflexivity |].
  unfold UpdateSymptom, tx_bind. rewrite SymptomExists_is.
  now destruct (0 <? _)%nat.
Qed.

(** [DeleteSymptom] on an existing symptom removes it: afterwards
    [SymptomExists] answers false, [ReadSymptom] throws the does-not-exist
    error, and the other keys are as before. *)
Theorem DeleteSymptom_removes :
  ∀ world id,
    SymptomExists id world = Ok (true, world) →
    ∃ world',
      DeleteSymptom id world = Ok (tt, world')
      ∧ SymptomExists id world' = Ok (false, world')
      ∧ ReadSymptom id world'
        = Throw (Thrown (new_Error (does_not_exist_message id)))
      ∧ (∀ key, key ≠ id → world' !! key = world !! key).
Proof.
  intros world id. rewrite SymptomExists_is. intros [= Hfound].
  exists (delete id world). split.
  - unfold DeleteSymptom, tx_bind. rewrite SymptomExists_is, Hfound. reflexivity.
  - unfold SymptomExists, ReadSymptom, tx_bind, tx_ret, tx_throw, getState.
    cbv beta. rewrite lookup_delete_eq. simpl. repeat split.
    intros key Hkey. now rewrite lookup_delete_ne.
Qed.

Lemma DeleteSymptom_removes_witness :
  ∃ world',
    DeleteSymptom "symptom1"
      ({["symptom1" := "{Cough}"; "symptom2" := "{Fever}"]} : gmap string string)
    = Ok (tt, world')
    ∧ SymptomExists "symptom1" world' = Ok (false, world')
    ∧ ReadSymptom "symptom1" world'
      = Throw (Thrown (new_Error (does_not_exist_message "symptom1")))
    ∧ (∀ key, key ≠ "symptom1" →
         world' !! key
         = ({["symptom1" := "{Cough}"; "symptom2" := "{Fever}"]}
            : gmap string string) !! key).
Proof.
  apply (DeleteSymptom_removes
           {["symptom1" := "{Cough}"; "symptom2" := "{Fever}"]} "symptom1").
  reflexivity.
Defined.

(** A missing symptom, absent or stored as the empty buffer, is rejected by
    [UpdateSymptom] and [DeleteSymptom] with the does-not-exist error. *)
Theorem missing_symptom_rejected :
  ∀ (JSON_stringify : Symptom → string) world id comment owner symptomTimestamp,
    SymptomExists id world = Ok (false, world) →
    UpdateSymptom JSON_stringify id comment owner symptomTimestamp world
    = Throw (Thrown (new_Error (does_not_exist_message id)))
    ∧ DeleteSymptom id world
      = Throw (Thrown (new_Error (does_not_exist_message id))).
Proof.
  intros JSON_stringify world id comment owner symptomTimestamp.
  rewrite SymptomExists_is. intros [= Hfound].
  unfold UpdateSymptom, DeleteSymptom, tx_bind.
  rewrite SymptomExists_is, Hfound. now split.
Qed.

Lemma missing_symptom_rejected_witness :
  UpdateSymptom (fun s => Comment s) "symptom9" "Cough" "Brad" 7
    ({["symptom9" := ""]} : gmap string string)
  = Throw (Thrown (new_Error (does_not_exist_message "symptom9")))
  ∧ DeleteSymptom "symptom9" ({["symptom9" := ""]} : gmap string string)
    = Throw (Thrown (new_Error (does_not_exist_message "symptom9"))).
Proof.
  apply (missing_symptom_rejected (fun s => Comment s) {["symptom9" := ""]}
           "symptom9" "Cough" "Brad" 7).
  reflexivity.
Defined.

(** Two creations under one id leave what the second alone would leave. *)
Theorem CreateSymptom_last_write_wins :
  ∀ (JSON_stringify : Symptom → string) world id
    comment1 owner1 symptomTimestamp1 comment2 owner2 symptomTimestamp2,
    tx_bind (CreateSymptom JSON_stringify id comment1 owner1 symptomTimestamp1)
      (fun _ => CreateSymptom JSON_stringify id comment2 owner2 symptomTimestamp2)
      world
    = CreateSymptom JSON_stringify id comment2 owner2 symptomTimestamp2 world.
Proof.
  intros. unfold CreateSymptom, tx_bind, putState. cbv beta.
  now rewrite insert_insert_eq.
Qed.

(** Creations under different ids do not interfere: both orders leave the
    same ledger. *)
Theorem CreateSymptom_commutes :
  ∀ (JSON_stringify : Symptom → string) world id1 id2
    comment1 owner1 symptomTimestamp1 comment2 owner2 symptomTimestamp2,
    id1 ≠ id2 →
    tx_bind (CreateSymptom JSON_stringify id1 comment1 owner1 symptomTimestamp1)
      (fun _ => CreateSymptom JSON_stringify id2 comment2 owner2 symptomTimestamp2)
      world
    = tx_bind (CreateSymptom JSON_stringify id2 comment2 owner2 symptomTimestamp2)
        (fun _ => CreateSymptom JSON_stringify id1 comment1 owner1 symptomTimestamp1)
        world.
Proof.
  intros. unfold CreateSymptom, tx_bind, putState. cbv beta.
  now rewrite insert_insert_ne.
Qed.

Lemma CreateSymptom_commutes_witness :
  tx_bind (CreateSymptom (fun s => Comment s) "symptom1" "Cough" "Brad" 7)
    (fun _ => CreateSymptom (fun s => Comment s) "symptom2" "Fever" "Ann" 8) ∅
  = tx_bind (CreateSymptom (fun s => Comment s) "symptom2" "Fever" "Ann" 8)
      (fun _ => CreateSymptom (fun s => Comment s) "symptom1" "Cough" "Brad" 7) ∅.
Proof.
  apply (CreateSymptom_commutes (fun s => Comment s) ∅ "symptom1" "symptom2").
  discriminate.
Defined.

(** Creating a symptom under a free id and deleting it again gives back
    the ledger as it was (the JSON text of an object is not empty). *)
Theorem CreateSymptom_then_DeleteSymptom :
  ∀ (JSON_stringify : Symptom → string) world id comment owner symptomTimestamp,
    world !! id = Datatypes.None →
    JSON_stringify {| ID := id; Comment := comment; Owner := owner;
                      SymptomTimestamp := symptomTimestamp |} ≠ "" →
    tx_bind (CreateSymptom JSON_stringify id comment owner symptomTimestamp)
      (fun _ => DeleteSymptom id) world
    = Ok (tt, world).
Proof.
  intros JSON_stringify world id comment owner symptomTimestamp Hfree Hne.
  unfold CreateSymptom, DeleteSymptom, SymptomExists, tx_bind, tx_ret,
    putState, getState, deleteState. cbv beta.
  rewrite lookup_insert_eq. simpl. unfold Buffer_from.
  rewrite (nonempty_length _ Hne). simpl.
  now rewrite delete_insert_id.
Qed.

Lemma CreateSymptom_then_DeleteSymptom_witness :
  tx_bind (CreateSymptom (fun s => "{" +:+ Comment s +:+ "}") "symptom2" "Fever" "Ann" 8)
    (fun _ => DeleteSymptom "symptom2")
    ({["symptom1" := "{Cough}"]} : gmap string string)
  = Ok (tt, {["symptom1" := "{Cough}"]}).
Proof.
  apply (CreateSymptom_then_DeleteSymptom (fun s => "{" +:+ Comment s +:+ "}")
           {["symptom1" := "{Cough}"]} "symptom2" "Fever" "Ann" 8).
  - reflexivity.
  - discriminate.
Defined.

(** [InitLedger] writes its two seeds under the one id "symptom1": the
    ledger ends with the second seed ("Stomach pain") under that id, the
    first is overwritten, and no other key is touched. *)
Theorem InitLedger_keeps_second_seed :
  ∀ (JSON_stringify_with_docType : Symptom → string → string) world now1 now2,
    InitLedger JSON_stringify_with_docType now1 now2 world
    = Ok (tt,
          <["symptom1" :=
              JSON_stringify_with_docType
                {| ID := "symptom1"; Comment := "Stomach pain"; Owner := "Brad";
                   SymptomTimestamp := now2 |} "symptom"]> world).
Proof.
  intros. unfold InitLedger, symptoms, for_of, tx_bind, tx_ret, putState.
  cbv beta. simpl. now rewrite insert_insert_eq.
Qed.

End Ledger.

(** ** From the chaincode's error to the response of the read route *)
Section ReadRoute.

Import Chaincode Router.

(** The chaincode's wording goes through [handleError] unchanged. *)
Lemma handleError_symptom_wording transactionId id :
  no_space id = true →
  handleError transactionId (new_Error (does_not_exist_message id))
  = Ok (new_Error (does_not_exist_message id)).
Proof.
  intros Hid.
  rewrite (handleError_error_like _ _ (does_not_exist_message id));
    [|reflexivity | reflexivity].
  unfold classified, matchSymptomAlreadyExistsMessage,
    matchSymptomDoesNotExistMessage, matchTransactionDoesNotExistMessage.
  rewrite (first_match_none _ _ (symptomAlreadyExists_not_in_message _ Hid)).
  rewrite (first_match_none _ _ (symptomDoesNotExist_not_in_message _ Hid)).
  now rewrite (first_match_none _ _ (transactionDoesNotExist_not_in_message _ Hid)).
Qed.

(** For an id without a space that the ledger does not hold,
    [ReadSymptom] throws an error that [handleError] returns unchanged, and
    when the evaluation fails with that value the route answers 500
    Internal Server Error, not 404: the error is no
    [SymptomNotFoundError]. *)
Theorem read_of_missing_symptom_answers_500 :
  ∀ (JSON_parse : string → option value) world id transactionId now,
    no_space id = true →
    world !! id = Datatypes.None →
    ∃ thrown,
      ReadSymptom id world = Throw (Thrown thrown)
      ∧ handleError transactionId thrown = Ok thrown
      ∧ instanceof thrown SymptomNotFoundErrorC = false
      ∧ readSymptomRoute JSON_parse (Throw (Thrown thrown)) now
        = {| status := INTERNAL_SERVER_ERROR;
             json := VObject ObjectC [("status", VString "Internal Server Error");
                                      ("timestamp", VString now)] |}
      ∧ code_number
          (status (readSymptomRoute JSON_parse (Throw (Thrown thrown)) now))
        = 500%Z.
Proof.
  intros JSON_parse world id transactionId now Hid Hmissing.
  exists (new_Error (does_not_exist_message id)).
  split; [|split; [now apply handleError_symptom_wording | now repeat split]].
  unfold ReadSymptom, tx_bind, getState. cbv beta. now rewrite Hmissing.
Qed.

Lemma read_of_missing_symptom_answers_500_witness :
  ∃ thrown,
    ReadSymptom "symptom3" ∅ = Throw (Thrown thrown)
    ∧ handleError "tx1" thrown = Ok thrown
    ∧ instanceof thrown SymptomNotFoundErrorC = false
    ∧ readSymptomRoute (fun _ => Datatypes.None)
        (Throw (Thrown thrown)) "2022-01-01T00:00:00.000Z"
      = {| status := INTERNAL_SERVER_ERROR;
           json := VObject ObjectC
                     [("status", VString "Internal Server Error");
                      ("timestamp", VString "2022-01-01T00:00:00.000Z")] |}
    ∧ code_number
        (status (readSymptomRoute (fun _ => Datatypes.None)
                   (Throw (Thrown thrown)) "2022-01-01T00:00:00.000Z"))
      = 500%Z.
Proof.
  apply (read_of_missing_symptom_answers_500 (fun _ => Datatypes.None) ∅
           "symptom3" "tx1" "2022-01-01T00:00:00.000Z"); reflexivity.
Defined.

(** When the evaluation fails with what [handleError] makes of an error
    whose message has the asset wording of does-not-exist (and nothing the
    already-exists pattern matches), the route answers 404 Not Found. *)
Theorem read_with_asset_wording_answers_404 :
  ∀ (JSON_parse : string → option value) transactionId err message
    pre a w post now,
    isErrorLike err = Ok true →
    message_of err = Ok message →
    message = pre +:+ String a ("sset " +:+ w +:+ " does not exist" +:+ post) →
    a = "a"%char ∨ a = "A"%char →
    all_chars word w = true →
    matchSymptomAlreadyExistsMessage message = Datatypes.None →
    ∃ handled,
      handleError transactionId err = Ok handled
      ∧ readSymptomRoute JSON_parse (Throw (Thrown handled)) now
        = {| status := NOT_FOUND;
             json := VObject ObjectC [("status", VString "Not Found");
                                      ("timestamp", VString now)] |}.
Proof.
  intros JSON_parse transactionId err message pre a w post now He Hm Hmsg Ha Hw Hnone.
  destruct (does_not_exist_found transactionId _ _ _ _ _ _ He Hm Hmsg Ha Hw Hnone)
    as [m Hhandled].
  exists (new_SymptomNotFoundError m transactionId). now split.
Qed.

Lemma read_with_asset_wording_answers_404_witness :
  ∃ handled,
    handleError "tx1" (new_Error "the asset symptom3 does not exist") = Ok handled
    ∧ readSymptomRoute (fun _ => Datatypes.None) (Throw (Thrown handled))
        "2022-01-01T00:00:00.000Z"
      = {| status := NOT_FOUND;
           json := VObject ObjectC
                     [("status", VString "Not Found");
                      ("timestamp", VString "2022-01-01T00:00:00.000Z")] |}.
Proof.
  apply (read_with_asset_wording_answers_404 (fun _ => Datatypes.None) "tx1"
           (new_Error "the asset symptom3 does not exist")
           "the asset symptom3 does not exist" "the " "a" "symptom3" "");
    try reflexivity.
  now left.
Defined.

End ReadRoute.

(** ** Classifying twice *)
Section Idempotence.

#[local] Arguments Ascii.eqb : simpl never.

Lemma star_falls_back p s k x : k s = Some x → ∃ y, star p s k = Some y.
Proof.
  intros Hk. destruct s as [|c s]; simpl; [eauto |].
  destruct (p c); [|eauto]. destruct (star p s k); eauto.
Qed.

Lemma star_extend p post s (k k' : string → option string) x :
  (∀ t x, k t = Some x → ∃ y, k' (t +:+ post) = Some y) →
  star p s k = Some x → ∃ y, star p (s +:+ post) k' = Some y.
Proof.
  intros Hk. revert x. induction s as [|c s IH]; intros x.
  - simpl. intros H. apply Hk in H as [y Hy]. rewrite append_empty.
    now apply star_falls_back with y.
  - rewrite append_cons. simpl. destruct (p c).
    + destruct (star p s k) as [z|] eqn:Hz.
      * intros _. destruct (IH z eq_refl) as [y ->]. eauto.
      * intros H. apply Hk in H as [y Hy]. rewrite append_cons in Hy.
        destruct (star p (s +:+ post) k'); eauto.
    + intros H. apply Hk in H as [y Hy]. rewrite append_cons in Hy. eauto.
Qed.

(** A match is not lost when text is added behind it: the expressions
    look at nothing beyond what they consume. *)
Lemma run_extend r post s (k k' : string → option string) x :
  (∀ t x, k t = Some x → ∃ y, k' (t +:+ post) = Some y) →
  run r s k = Some x → ∃ y, run r (s +:+ post) k' = Some y.
Proof.
  revert s k k' x.
  induction r as [|p|r1 IH1 r2 IH2|r1 IH1 r2 IH2|r1 IH1|p];
    intros s k k' x Hk; simpl.
  - apply Hk.
  - destruct s as [|c s]; [discriminate |]. rewrite append_cons.
    destruct (p c); [apply Hk | discriminate].
  - apply IH1. intros t y. now apply IH2.
  - destruct (run r1 s k) as [z|] eqn:Hz.
    + intros _. destruct (IH1 _ _ k' _ Hk Hz) as [y ->]. eauto.
    + intros H. destruct (IH2 _ _ k' _ Hk H) as [y Hy].
      destruct (run r1 (s +:+ post) k'); eauto.
  - destruct (run r1 s k) as [z|] eqn:Hz.
    + intros _. destruct (IH1 _ _ k' _ Hk Hz) as [y ->]. eauto.
    + intros H. apply Hk in H as [y Hy].
      destruct (run r1 (s +:+ post) k'); eauto.
  - now apply star_extend.
Qed.

Lemma exec_found_somewhere r s x :
  exec r s = Some x → ∃ s1 s2 rest, s = s1 +:+ s2 ∧ run r s2 Some = Some rest.
Proof.
  induction s as [|c s IH]; rewrite exec_unfold; unfold match_here.
  - destruct (run r "" Some) as [rest|] eqn:Hr; [|discriminate].
    intros _. now exists "", "", rest.
  - destruct (run r (String c s) Some) as [rest|] eqn:Hr.
    + intros _. now exists "", (String c s), rest.
    + intros H. apply IH in H as (s1 & s2 & rest & -> & H).
      now exists (String c s1), s2, rest.
Qed.

(** What an expression does not find in a text it does not find in a piece
    of that text. *)
Lemma first_match_in_piece r m s :
  occurs_in m s → first_match r s = None → first_match r m = None.
Proof.
  intros (pre & post & ->) Hnone.
  destruct (first_match r m) as [x|] eqn:Hx; [|reflexivity].
  rewrite first_match_exec in Hx.
  destruct (exec r m) as [found|] eqn:He; [|discriminate].
  apply exec_found_somewhere in He as (s1 & s2 & rest & -> & Hrun).
  destruct (run_extend r post s2 Some Some rest) as [y Hy]; [eauto | assumption |].
  destruct (first_match_finds r (pre +:+ s1) _ _ Hy) as [z Hz].
  rewrite !append_assoc in *. congruence.
Qed.

Lemma substring_all (s : string) : substring 0 (String.length s - 0) s = s.
Proof.
  rewrite Nat.sub_0_r. rewrite <- (append_empty_r s) at 2.
  apply substring_append.
Qed.

(** A text the expression matches from end to end is its own first match. *)
Lemma first_match_whole r m : run r m Some = Some "" → first_match r m = Some m.
Proof.
  intros H. rewrite first_match_exec, exec_unfold. unfold match_here.
  rewrite H. simpl. now rewrite substring_all.
Qed.

Lemma asset_expression_whole tail article a w :
  article = "" ∨ article = "The " ∨ article = "the " →
  a = "a"%char ∨ a = "A"%char →
  all_chars word w = true →
  run (Opt (Chr (one_of "tT") >> lit "he ") >>
       Chr (one_of "aA") >> lit "sset " >> Star word >> lit (String " " tail))
      (article +:+ String a ("sset " +:+ w +:+ String " " tail)) Some
  = Some "".
Proof.
  intros Harticle Ha Hw.
  pose proof (asset_expression_here tail a w "" Ha Hw) as Hhere.
  rewrite append_empty_r in Hhere.
  destruct Harticle as [-> | Hthe]; [now rewrite append_empty |].
  assert (Hgroup : ∃ t, one_of "tT" t = true
                        ∧ article = String t ("he " +:+ ""))
    by (destruct Hthe as [-> | ->];
        [exists "T"%char | exists "t"%char]; split; reflexivity).
  destruct Hgroup as (t & Ht & ->).
  rewrite append_cons, append_assoc, append_empty.
  rewrite run_seq, run_opt, run_seq, run_chr_cons, Ht.
  rewrite run_lit, strip_prefix_append.
  rewrite run_seq in Hhere. rewrite run_opt in Hhere.
  destruct (run (Chr (one_of "tT") >> lit "he ") _ _) eqn:Hskip in Hhere.
  - revert Hskip. rewrite run_seq, run_chr_cons.
    destruct Ha as [-> | ->]; discriminate.
  - now rewrite Hhere.
Qed.

Lemma already_exists_text_matches_itself article a w :
  article = "" ∨ article = "The " ∨ article = "the " →
  a = "a"%char ∨ a = "A"%char →
  all_chars word w = true →
  matchSymptomAlreadyExistsMessage
    (article +:+ String a ("sset " +:+ w +:+ " already exists"))
  = Some (article +:+ String a ("sset " +:+ w +:+ " already exists")).
Proof.
  intros Harticle Ha Hw. apply first_match_whole.
  exact (asset_expression_whole "already exists" _ _ _ Harticle Ha Hw).
Qed.

Lemma does_not_exist_text_matches_itself article a w :
  article = "" ∨ article = "The " ∨ article = "the " →
  a = "a"%char ∨ a = "A"%char →
  all_chars word w = true →
  matchSymptomDoesNotExistMessage
    (article +:+ String a ("sset " +:+ w +:+ " does not exist"))
  = Some (article +:+ String a ("sset " +:+ w +:+ " does not exist")).
Proof.
  intros Harticle Ha Hw. apply first_match_whole.
  exact (asset_expression_whole "does not exist" _ _ _ Harticle Ha Hw).
Qed.

Lemma transaction_text_matches_itself id reason :
  all_chars (none_of ",") id = true →
  (reason = "Entry not found"
   ∨ ∃ id', reason = "no such transaction ID [" +:+ id' +:+ "]"
            ∧ all_chars (none_of "]") id' = true) →
  matchTransactionDoesNotExistMessage
    ("Failed to get transaction with id " +:+ id +:+ ", error "
     +:+ reason +:+ " in index")
  = Some ("Failed to get transaction with id " +:+ id +:+ ", error "
          +:+ reason +:+ " in index").
Proof.
  intros Hid Hreason. apply first_match_whole.
  pose proof (transaction_expression_here id reason "" Hid Hreason) as Hwhole.
  now rewrite !append_empty_r in Hwhole.
Qed.

Lemma not_found_in_piece_A m message :
  occurs_in m message →
  matchSymptomAlreadyExistsMessage message = Datatypes.None →
  matchSymptomAlreadyExistsMessage m = Datatypes.None.
Proof. apply first_match_in_piece. Qed.

Lemma not_found_in_piece_B m message :
  occurs_in m message →
  matchSymptomDoesNotExistMessage message = Datatypes.None →
  matchSymptomDoesNotExistMessage m = Datatypes.None.
Proof. apply first_match_in_piece. Qed.

(** [handleError] is idempotent: handling its own answer again, under the
    same transaction identity, gives that answer again. *)
Theorem handleError_idempotent :
  ∀ transactionId err v,
    handleError transactionId err = Ok v →
    handleError transactionId v = Ok v.
Proof.
  intros transactionId err v.
  destruct (isErrorLike_returns err) as [[|] He];
    [|rewrite (handleError_not_error_like _ _ He); intros [= <-];
      now apply handleError_not_error_like].
  destruct (isErrorLike_message _ He) as [message Hm].
  rewrite (handleError_error_like _ _ _ He Hm). unfold classified.
  destruct (matchSymptomAlreadyExistsMessage message) as [m|] eqn:Ha.
  { intros [= <-].
    rewrite (handleError_error_like _ _ m); [|reflexivity | reflexivity].
    unfold classified.
    apply matchSymptomAlreadyExistsMessage_shape_of in Ha
      as (article & a & w & -> & Harticle & Haa & Hw).
    now rewrite already_exists_text_matches_itself. }
  destruct (matchSymptomDoesNotExistMessage message) as [m|] eqn:Hb.
  { intros [= <-].
    rewrite (handleError_error_like _ _ m); [|reflexivity | reflexivity].
    unfold classified.
    pose proof (first_match_sound _ _ _ Hb) as [Hin _].
    rewrite (not_found_in_piece_A _ _ Hin Ha).
    apply matchSymptomDoesNotExistMessage_shape_of in Hb
      as (article & a & w & -> & Harticle & Haa & Hw).
    now rewrite does_not_exist_text_matches_itself. }
  destruct (matchTransactionDoesNotExistMessage message) as [m|] eqn:Hc.
  { intros [= <-].
    rewrite (handleError_error_like _ _ m); [|reflexivity | reflexivity].
    unfold classified.
    pose proof (first_match_sound _ _ _ Hc) as [Hin _].
    rewrite (not_found_in_piece_A _ _ Hin Ha).
    rewrite (not_found_in_piece_B _ _ Hin Hb).
    apply matchTransactionDoesNotExistMessage_shape_of in Hc
      as (id & reason & -> & Hid & Hreason).
    now rewrite transaction_text_matches_itself. }
  intros [= <-].
  rewrite (handleError_error_like _ _ _ He Hm). unfold classified.
  now rewrite Ha, Hb, Hc.
Qed.

Lemma handleError_idempotent_witness :
  handleError "tx1" (new_SymptomNotFoundError "asset a1 does not exist" "tx1")
  = Ok (new_SymptomNotFoundError "asset a1 does not exist" "tx1").
Proof.
  apply (handleError_idempotent "tx1" (new_Error "peer0: asset a1 does not exist")).
  reflexivity.
Defined.

End Idempotence.

(** ** The wording of the router test *)
Section TestWording.

Import Chaincode Router.

#[local] Arguments Ascii.eqb : simpl never.

Ltac skip_lowercase_prefix :=
  rewrite ?append_cons, append_empty;
  repeat (rewrite exec_skip by reflexivity).

Lemma lowercase_wording_not_found id :
  no_space id = true →
  exec symptomAlreadyExistsRegex ("the symptom " +:+ id +:+ " does not exist") = None
  ∧ exec symptomDoesNotExistRegex ("the symptom " +:+ id +:+ " does not exist") = None
  ∧ exec transactionDoesNotExistRegex ("the symptom " +:+ id +:+ " does not exist")
    = None.
Proof.
  intros Hid. repeat split; skip_lowercase_prefix;
    (apply exec_through_space_free; [|reflexivity | assumption]); intros id' Hid'.
  - now apply symptomAlreadyExists_not_here.
  - now apply symptomDoesNotExist_not_here.
  - now apply transactionDoesNotExist_not_here.
Qed.

(** The rejection the router test feeds to the read of a missing symptom,
    an error saying "the symptom <id> does not exist", is returned
    unchanged by [handleError] for every id without a space, and the read
    route answers it with 500 Internal Server Error. *)
Theorem test_wording_answers_500 :
  ∀ (JSON_parse : string → option value) id transactionId now,
    no_space id = true →
    handleError transactionId
      (new_Error ("the symptom " +:+ id +:+ " does not exist"))
    = Ok (new_Error ("the symptom " +:+ id +:+ " does not exist"))
    ∧ readSymptomRoute JSON_parse
        (Throw (Thrown (new_Error ("the symptom " +:+ id +:+ " does not exist"))))
        now
      = {| status := INTERNAL_SERVER_ERROR;
           json := VObject ObjectC [("status", VString "Internal Server Error");
                                    ("timestamp", VString now)] |}.
Proof.
  intros JSON_parse id transactionId now Hid.
  destruct (lowercase_wording_not_found id Hid) as (Ha & Hb & Hc).
  split; [|reflexivity].
  rewrite (handleError_error_like _ _ ("the symptom " +:+ id +:+ " does not exist"));
    [|reflexivity | reflexivity].
  unfold classified, matchSymptomAlreadyExistsMessage,
    matchSymptomDoesNotExistMessage, matchTransactionDoesNotExistMessage.
  now rewrite (first_match_none _ _ Ha), (first_match_none _ _ Hb),
    (first_match_none _ _ Hc).
Qed.

Lemma test_wording_answers_500_witness :
  handleError "tx1" (new_Error ("the symptom " +:+ "symptom3" +:+ " does not exist"))
  = Ok (new_Error ("the symptom " +:+ "symptom3" +:+ " does not exist"))
  ∧ readSymptomRoute (fun _ => Datatypes.None)
      (Throw (Thrown (new_Error ("the symptom " +:+ "symptom3" +:+ " does not exist"))))
      "2022-01-01T00:00:00.000Z"
    = {| status := INTERNAL_SERVER_ERROR;
         json := VObject ObjectC
                   [("status", VString "Internal Server Error");
                    ("timestamp", VString "2022-01-01T00:00:00.000Z")] |}.
Proof.
  apply (test_wording_answers_500 (fun _ => Datatypes.None) "symptom3" "tx1"
           "2022-01-01T00:00:00.000Z").
  reflexivity.
Defined.

End TestWording.
